(** * Problem tools of the ServiceNow MCP server

    A shallow embedding of [src/servicenow_mcp/tools/problem_tools.py]:
    the three read-only operations on the [problem] table
    ([list_problems], [get_problem_by_number], [search_problems]), the
    pydantic parameter classes they take, and the parts of Python and of
    the [requests] library they rely on.

    Python values are a datatype of JSON-shaped values, dictionaries are
    finite maps, exceptions are values of a sum type, and the outside world
    (the remote table API, the logger) is an oracle plus an event trace that
    the operations thread through a small monad.

    The command-line script [search_articles.py] ([build_auth_config],
    [main]) is embedded after the operations, in the module
    [SearchArticles]. *)

From Stdlib Require Import ZArith String Ascii List PrimFloat.
From stdpp Require Import base option list gmap strings pretty.

Set Warnings "-register-all".

Local Open Scope string_scope.
Local Open Scope list_scope.
Local Open Scope Z_scope.

(** ** Python values and exceptions *)

Module Py.

(** The values that [json.loads] produces and that the operations build:
    [None], [bool], [int] (unbounded), [float] (binary64), [str], [list]
    and [dict] with string keys. *)
Inductive pyval : Type :=
| PNone
| PBool (b : bool)
| PInt (n : Z)
| PFloat (x : float)
| PStr (s : string)
| PList (l : list pyval)
| PDict (d : gmap string pyval).

(** The exception classes that can reach the operations.  The first five
    are [requests.exceptions]; [RequestException] is their base class. *)
Inductive exn_class : Type :=
| ConnectionError | Timeout | HTTPError | JSONDecodeError | RequestException
| ValidationError
| AttributeError | TypeError | KeyError | IndexError
| OtherError.

(** An exception: its class and [str(e)]. *)
Record exn : Type := Exn { exn_cls : exn_class; exn_str : string }.

(** [isinstance(e, requests.RequestException)]. *)
Definition is_RequestException (e : exn) : bool :=
  match exn_cls e with
  | ConnectionError | Timeout | HTTPError | JSONDecodeError
  | RequestException => true
  | _ => false
  end.

(** Fallible pure code: [inl e] is [raise e]. *)
Definition result (A : Type) : Type := exn + A.

#[global] Instance result_ret : MRet (sum exn) := λ A x, inr x.
#[global] Instance result_bind : MBind (sum exn) := λ A B f m,
  match m with inl e => inl e | inr x => f x end.
#[global] Arguments result_ret {A} x /.
#[global] Arguments result_bind {A B} f !m /.

(** [type(v).__name__], as it appears in the interpreter's messages. *)
Definition type_name (v : pyval) : string :=
  match v with
  | PNone => "NoneType" | PBool _ => "bool" | PInt _ => "int"
  | PFloat _ => "float" | PStr _ => "str" | PList _ => "list"
  | PDict _ => "dict"
  end.

(** [isinstance(v, dict)]. *)
Definition is_dict (v : pyval) : bool :=
  match v with PDict _ => true | _ => false end.

(** [bool(v)]: the truth value tested by [if v:] and [not v]. *)
Definition truthy (v : pyval) : bool :=
  match v with
  | PNone => false
  | PBool b => b
  | PInt n => negb (n =? 0)
  | PFloat x => negb (PrimFloat.eqb x 0%float)
  | PStr s => negb (String.eqb s "")
  | PList l => negb (Nat.eqb (length l) 0)
  | PDict d => negb (Nat.eqb (size d) 0)
  end.

(** Truth value of an [Optional[str]] attribute. *)
Definition truthy_opt (v : option string) : bool :=
  match v with Some s => negb (String.eqb s "") | None => false end.

(** [f"{v}"] for an [Optional[str]] attribute. *)
Definition fmt (v : option string) : string :=
  match v with Some s => s | None => "None" end.

(** [v.get(k, dflt)]: only a dict has the method. *)
Definition get (v : pyval) (k : string) (dflt : pyval) : result pyval :=
  match v with
  | PDict d => inr (default dflt (d !! k))
  | _ => inl (Exn AttributeError
                ("'" +:+ type_name v +:+ "' object has no attribute 'get'"))
  end.

(** The elements that [for x in v] visits.  A dict yields its keys (here in
    key order; every use below treats the keys alike), a str its
    characters. *)
Definition iter (v : pyval) : result (list pyval) :=
  match v with
  | PList l => inr l
  | PStr s => inr ((λ c, PStr (String c "")) <$> list_ascii_of_string s)
  | PDict d => inr (PStr <$> (map_to_list d).*1)
  | _ => inl (Exn TypeError
                ("'" +:+ type_name v +:+ "' object is not iterable"))
  end.

(** [v[0]]. *)
Definition index0 (v : pyval) : result pyval :=
  match v with
  | PList (x :: _) => inr x
  | PList [] => inl (Exn IndexError "list index out of range")
  | PStr (String c _) => inr (PStr (String c ""))
  | PStr "" => inl (Exn IndexError "string index out of range")
  | PDict _ => inl (Exn KeyError "0")
  | _ => inl (Exn TypeError
                ("'" +:+ type_name v +:+ "' object is not subscriptable"))
  end.

(** A dict display [{k1: v1, ..., kn: vn}]: the items are stored left to
    right, a later item replacing an earlier one with the same key. *)
Definition dict (items : list (string * pyval)) : gmap string pyval :=
  foldl (λ d kv, <[kv.1 := kv.2]> d) ∅ items.

End Py.
Import Py.

(** ** The [requests] library *)

Module Requests.

(** One call [requests.get(url, params=..., headers=..., timeout=...)]. *)
Record Request : Type := {
  req_url : string;
  req_params : gmap string pyval;
  req_headers : gmap string string;
  req_timeout : Z
}.

(** A [requests.Response]: status line, final URL, and what [.json()]
    gives: the decoded body, or the message of the decoding error. *)
Record Response : Type := {
  status_code : Z;
  reason : string;
  url : string;
  body : string + pyval
}.

(** What a call to [requests.get] comes to: it raises (connection
    refused, timeout, ...) or returns a response. *)
Inductive outcome : Type :=
| Raises (e : exn)
| Responds (r : Response).

(** [Response.raise_for_status()]: an [HTTPError] for a 4xx or a 5xx
    status, nothing for any other status. *)
Definition raise_for_status (r : Response) : result unit :=
  if (400 <=? status_code r) && (status_code r <? 500) then
    inl (Exn HTTPError (pretty (status_code r) +:+ " Client Error: "
                        +:+ reason r +:+ " for url: " +:+ url r))
  else if (500 <=? status_code r) && (status_code r <? 600) then
    inl (Exn HTTPError (pretty (status_code r) +:+ " Server Error: "
                        +:+ reason r +:+ " for url: " +:+ url r))
  else inr tt.

(** [Response.json()]: since requests 2.27 a body that is not JSON raises
    [requests.exceptions.JSONDecodeError], a [RequestException]. *)
Definition json (r : Response) : result pyval :=
  match body r with
  | inl msg => inl (Exn JSONDecodeError msg)
  | inr v => inr v
  end.

End Requests.
Import Requests.

(** ** Effects: one oracle for the network, one trace of what happened *)

Module Effects.

Inductive event : Type :=
| HttpGet (r : Request)
| LogError (msg : string).

(** The remote side: what each request would come to. *)
Definition World : Type := Request → outcome.

(** A computation reads the world, extends the trace (oldest event first)
    and returns a value or raises. *)
Definition Tool (A : Type) : Type :=
  World → list event → result A * list event.

#[global] Instance tool_ret : MRet Tool := λ A x w tr, (inr x, tr).
#[global] Instance tool_bind : MBind Tool := λ A B f m w tr,
  match m w tr with
  | (inl e, tr') => (inl e, tr')
  | (inr x, tr') => f x w tr'
  end.

(** Pure fallible code run inside a computation: the statements of a
    [try] block that follow the network call touch neither the network nor
    the log. *)
Definition lift {A} (r : result A) : Tool A := λ w tr, (r, tr).

(** [try: body / except <catches> as e: handler e]. *)
Definition try_except {A} (body : Tool A) (catches : exn → bool)
    (handler : exn → Tool A) : Tool A := λ w tr,
  match body w tr with
  | (inl e, tr') => if catches e then handler e w tr' else (inl e, tr')
  | (inr x, tr') => (inr x, tr')
  end.

Definition requests_get (url : string) (params : gmap string pyval)
    (headers : gmap string string) (timeout : Z) : Tool Response := λ w tr,
  let r := {| req_url := url; req_params := params;
              req_headers := headers; req_timeout := timeout |} in
  (match w r with Raises e => inl e | Responds resp => inr resp end,
   tr ++ [HttpGet r]).

(** [logger.error(msg)]. *)
Definition logger_error (msg : string) : Tool unit := λ w tr,
  (inr tt, tr ++ [LogError msg]).

(** Running an operation from an empty trace. *)
Definition run {A} (m : Tool A) (w : World) : result A * list event :=
  m w [].

(** The requests of a trace, in order. *)
Definition http_requests (tr : list event) : list Request :=
  omap (λ ev, match ev with HttpGet r => Some r | LogError _ => None end) tr.

End Effects.
Import Effects.

(** ** Collaborators that live outside the module *)

(** [ServerConfig], as far as the operations read it: the [api_url]
    property and the request timeout in seconds. *)
Record ServerConfig : Type := {
  api_url : string;
  timeout : Z
}.

(** [AuthManager], as far as the operations use it: what the call
    [auth_manager.get_headers()] comes to (the headers, or an exception).
    What the manager does to get them (a token request, on the OAuth path)
    is its own business: the trace of an operation records the operation's
    own [requests.get] call and its own log entries only. *)
Record AuthManager : Type := {
  get_headers : result (gmap string string)
}.

(** ** The parameter classes (pydantic models)

    Each class is a record of its fields, and a constructor that takes the
    keyword arguments a caller may give or leave out ([None] here is "not
    given") and applies the declared defaults.  Arguments are taken
    well-typed (an [int] for an [int] field, a [str] for a [str] field), so
    the only check left to pydantic is that a required field is there. *)

Module ListProblemsParams.

Record t : Type := {
  limit : Z;
  offset : Z;
  state : option string;
  assigned_to : option string;
  category : option string;
  query : option string
}.

(** [ListProblemsParams(limit=..., offset=..., state=..., ...)]. *)
Definition make (limit offset : option Z)
    (state assigned_to category query : option string) : result t :=
  inr {| limit := default 10 limit; offset := default 0 offset;
         state := state; assigned_to := assigned_to;
         category := category; query := query |}.

End ListProblemsParams.

Module GetProblemByNumberParams.

Record t : Type := {
  problem_number : string
}.

(** [GetProblemByNumberParams(problem_number=...)]: the field is declared
    with [Field(...)], so it is required. *)
Definition make (problem_number : option string) : result t :=
  match problem_number with
  | Some n => inr {| problem_number := n |}
  | None => inl (Exn ValidationError "problem_number: Field required")
  end.

End GetProblemByNumberParams.

Module SearchProblemsParams.

Record t : Type := {
  keywords : list string;
  limit : Z;
  offset : Z
}.

(** [SearchProblemsParams(keywords=..., limit=..., offset=...)]. *)
Definition make (keywords : option (list string))
    (limit offset : option Z) : result t :=
  match keywords with
  | Some kws => inr {| keywords := kws; limit := default 10 limit;
                       offset := default 0 offset |}
  | None => inl (Exn ValidationError "keywords: Field required")
  end.

End SearchProblemsParams.

(** ** The operations *)

Module ProblemTools.

(** The block that both [list_problems] (lines 96-114) and
    [get_problem_by_number] (lines 173-189) apply to a raw record: the
    eleven-key output dict, with [assigned_to] replaced by its
    [display_value] member when it is a dict. *)
Definition normalize_problem (rec : pyval) : result pyval :=
  assigned_to ← get rec "assigned_to" PNone;
  assigned_to ← (if is_dict assigned_to
                 then get assigned_to "display_value" PNone
                 else mret assigned_to);
  sys_id ← get rec "sys_id" PNone;
  number ← get rec "number" PNone;
  short_description ← get rec "short_description" PNone;
  description ← get rec "description" PNone;
  state ← get rec "state" PNone;
  priority ← get rec "priority" PNone;
  category ← get rec "category" PNone;
  subcategory ← get rec "subcategory" PNone;
  created_on ← get rec "sys_created_on" PNone;
  updated_on ← get rec "sys_updated_on" PNone;
  mret (PDict (dict [
    ("sys_id", sys_id);
    ("number", number);
    ("short_description", short_description);
    ("description", description);
    ("state", state);
    ("priority", priority);
    ("assigned_to", assigned_to);
    ("category", category);
    ("subcategory", subcategory);
    ("created_on", created_on);
    ("updated_on", updated_on)])).

(** The compact record that [search_problems] builds (lines 256-266). *)
Definition normalize_compact (rec : pyval) : result pyval :=
  sys_id ← get rec "sys_id" PNone;
  number ← get rec "number" PNone;
  short_description ← get rec "short_description" PNone;
  state ← get rec "state" PNone;
  priority ← get rec "priority" PNone;
  created_on ← get rec "sys_created_on" PNone;
  updated_on ← get rec "sys_updated_on" PNone;
  mret (PDict (dict [
    ("sys_id", sys_id);
    ("number", number);
    ("short_description", short_description);
    ("state", state);
    ("priority", priority);
    ("created_on", created_on);
    ("updated_on", updated_on)])).

(** The list [filters] of [list_problems] (lines 70-78). *)
Definition list_filters (params : ListProblemsParams.t) : list string :=
  let filters := [] in
  let filters :=
    if truthy_opt (ListProblemsParams.state params)
    then filters ++ ["state=" +:+ fmt (ListProblemsParams.state params)]
    else filters in
  let filters :=
    if truthy_opt (ListProblemsParams.assigned_to params)
    then filters ++ ["assigned_to="
                     +:+ fmt (ListProblemsParams.assigned_to params)]
    else filters in
  let filters :=
    if truthy_opt (ListProblemsParams.category params)
    then filters ++ ["category=" +:+ fmt (ListProblemsParams.category params)]
    else filters in
  let filters :=
    if truthy_opt (ListProblemsParams.query params)
    then filters ++ ["short_descriptionLIKE"
                     +:+ fmt (ListProblemsParams.query params)
                     +:+ "^ORdescriptionLIKE"
                     +:+ fmt (ListProblemsParams.query params)]
    else filters in
  filters.

(** The dict [query_params] of [list_problems] as it stands when the
    request is sent (lines 63-68 and 80-81). *)
Definition list_query_params (params : ListProblemsParams.t)
    : gmap string pyval :=
  let query_params := dict [
    ("sysparm_limit", PInt (ListProblemsParams.limit params));
    ("sysparm_offset", PInt (ListProblemsParams.offset params));
    ("sysparm_display_value", PStr "true");
    ("sysparm_exclude_reference_link", PStr "true")] in
  let filters := list_filters params in
  if truthy (PList (PStr <$> filters))
  then <["sysparm_query" := PStr (String.concat "^" filters)]> query_params
  else query_params.

Definition list_problems (config : ServerConfig) (auth_manager : AuthManager)
    (params : ListProblemsParams.t) : Tool pyval :=
  let api_url := api_url config +:+ "/table/problem" in
  let query_params := list_query_params params in
  try_except
    (headers ← lift (get_headers auth_manager);
     response ← requests_get api_url query_params headers (timeout config);
     lift (
       raise_for_status response;;
       data ← json response;
       result ← get data "result" (PList []);
       recs ← iter result;
       problems ← mapM normalize_problem recs;
       mret (PDict (dict [
         ("success", PBool true);
         ("message", PStr ("Found " +:+ pretty (length problems)
                           +:+ " problems"));
         ("problems", PList problems)]))))
    is_RequestException
    (λ e,
     logger_error ("Failed to list problems: " +:+ exn_str e);;
     mret (PDict (dict [
       ("success", PBool false);
       ("message", PStr ("Failed to list problems: " +:+ exn_str e));
       ("problems", PList [])]))).

(** The dict [query_params] of [get_problem_by_number] (lines 149-154). *)
Definition get_query_params (params : GetProblemByNumberParams.t)
    : gmap string pyval :=
  dict [
    ("sysparm_query",
     PStr ("number=" +:+ GetProblemByNumberParams.problem_number params));
    ("sysparm_limit", PInt 1);
    ("sysparm_display_value", PStr "true");
    ("sysparm_exclude_reference_link", PStr "true")].

Definition get_problem_by_number (config : ServerConfig)
    (auth_manager : AuthManager) (params : GetProblemByNumberParams.t)
    : Tool pyval :=
  let api_url := api_url config +:+ "/table/problem" in
  let query_params := get_query_params params in
  try_except
    (headers ← lift (get_headers auth_manager);
     response ← requests_get api_url query_params headers (timeout config);
     lift (
       raise_for_status response;;
       data ← json response;
       result ← get data "result" (PList []);
       if negb (truthy result) then
         mret (PDict (dict [
           ("success", PBool false);
           ("message",
            PStr ("Problem not found: "
                  +:+ GetProblemByNumberParams.problem_number params))]))
       else
         rec ← index0 result;
         problem ← normalize_problem rec;
         mret (PDict (dict [
           ("success", PBool true);
           ("message",
            PStr ("Problem "
                  +:+ GetProblemByNumberParams.problem_number params
                  +:+ " found"));
           ("problem", problem)]))))
    is_RequestException
    (λ e,
     logger_error ("Failed to fetch problem: " +:+ exn_str e);;
     mret (PDict (dict [
       ("success", PBool false);
       ("message", PStr ("Failed to fetch problem: " +:+ exn_str e))]))).

(** The list [or_parts] of [search_problems] (lines 221-226): the loop
    over the keywords, skipping the falsy ones. *)
Fixpoint search_or_parts (keywords : list string) : list string :=
  match keywords with
  | [] => []
  | kw :: rest =>
      if negb (truthy (PStr kw)) then search_or_parts rest
      else ("short_descriptionLIKE" +:+ kw)
           :: ("descriptionLIKE" +:+ kw)
           :: search_or_parts rest
  end.

(** The dict [query_params] of [search_problems] (lines 232-242). *)
Definition search_query_params (params : SearchProblemsParams.t)
    (or_parts : list string) : gmap string pyval :=
  let sysparm_query := String.concat "^OR" or_parts in
  dict [
    ("sysparm_query", PStr sysparm_query);
    ("sysparm_limit", PInt (SearchProblemsParams.limit params));
    ("sysparm_offset", PInt (SearchProblemsParams.offset params));
    ("sysparm_display_value", PStr "true");
    ("sysparm_exclude_reference_link", PStr "true");
    ("sysparm_fields",
     PStr "sys_id,number,short_description,state,priority,sys_created_on,sys_updated_on")].

Definition search_problems (config : ServerConfig)
    (auth_manager : AuthManager) (params : SearchProblemsParams.t)
    : Tool pyval :=
  let api_url := api_url config +:+ "/table/problem" in
  if negb (truthy (PList (PStr <$> SearchProblemsParams.keywords params)))
  then
    mret (PDict (dict [
      ("success", PBool true);
      ("message", PStr "No keywords provided");
      ("problems", PList [])]))
  else
    let or_parts := search_or_parts (SearchProblemsParams.keywords params) in
    if negb (truthy (PList (PStr <$> or_parts))) then
      mret (PDict (dict [
        ("success", PBool true);
        ("message", PStr "No valid keywords");
        ("problems", PList [])]))
    else
      let query_params := search_query_params params or_parts in
      try_except
        (headers ← lift (get_headers auth_manager);
         response ← requests_get api_url query_params headers
                      (timeout config);
         lift (
           raise_for_status response;;
           data ← json response;
           result ← get data "result" (PList []);
           recs ← iter result;
           problems ← mapM normalize_compact recs;
           mret (PDict (dict [
             ("success", PBool true);
             ("message", PStr ("Found " +:+ pretty (length problems)
                               +:+ " problems matching keywords"));
             ("problems", PList problems)]))))
        is_RequestException
        (λ e,
         logger_error ("Failed to search problems: " +:+ exn_str e);;
         mret (PDict (dict [
           ("success", PBool false);
           ("message", PStr ("Failed to search problems: " +:+ exn_str e));
           ("problems", PList [])]))).

End ProblemTools.
Import ProblemTools.

(** ** Callers

    How the tests and the server use the module: build the parameter object
    from the caller's arguments, then run the operation on it
    (tests/test_problem_tools.py, lines 51-52, 86-87, 133-134). *)

Definition call_list_problems (config : ServerConfig)
    (auth_manager : AuthManager) (limit offset : option Z)
    (state assigned_to category query : option string) : Tool pyval :=
  params ← lift (ListProblemsParams.make limit offset state assigned_to
                   category query);
  list_problems config auth_manager params.

Definition call_get_problem_by_number (config : ServerConfig)
    (auth_manager : AuthManager) (problem_number : option string)
    : Tool pyval :=
  params ← lift (GetProblemByNumberParams.make problem_number);
  get_problem_by_number config auth_manager params.

Definition call_search_problems (config : ServerConfig)
    (auth_manager : AuthManager) (keywords : option (list string))
    (limit offset : option Z) : Tool pyval :=
  params ← lift (SearchProblemsParams.make keywords limit offset);
  search_problems config auth_manager params.

(** ** Vocabulary of the properties *)

(** The keys of a normalized problem record. *)
Definition problem_keys : list string :=
  ["sys_id"; "number"; "short_description"; "description"; "state";
   "priority"; "assigned_to"; "category"; "subcategory"; "created_on";
   "updated_on"].

(** The raw field an output key is read from. *)
Definition raw_name (k : string) : string :=
  match k with
  | "created_on" => "sys_created_on"
  | "updated_on" => "sys_updated_on"
  | _ => k
  end.

(** A raw field passed through: its value, or [None] when absent. *)
Definition passed (v : option pyval) : pyval := default PNone v.

(** A raw field with a structured value collapsed to its [display_value]
    member. *)
Definition display (v : option pyval) : pyval :=
  match v with
  | Some (PDict d) => default PNone (d !! "display_value")
  | Some x => x
  | None => PNone
  end.

(** A 2xx status. *)
Definition success_status (r : Response) : bool :=
  (200 <=? status_code r) && (status_code r <? 300).

(** A 4xx or 5xx status. *)
Definition error_status (r : Response) : bool :=
  (400 <=? status_code r) && (status_code r <? 600).

(** The ways an exchange with the remote API fails, each with the cause it
    reports: [requests.get] raises a [RequestException] (connection error,
    timeout), the response has a 4xx or 5xx status, or its body is not
    JSON. *)
Inductive transport_failure : outcome → string → Prop :=
| failure_raised (e : exn) :
    is_RequestException e = true →
    transport_failure (Raises e) (exn_str e)
| failure_status (r : Response) (e : exn) :
    error_status r = true →
    raise_for_status r = inl e →
    transport_failure (Responds r) (exn_str e)
| failure_body (r : Response) (msg : string) :
    error_status r = false →
    body r = inl msg →
    transport_failure (Responds r) msg.

(** Whitespace as [str.strip()] sees it, within ASCII. *)
Definition is_space (c : ascii) : bool :=
  let n := nat_of_ascii c in
  ((9 <=? n) && (n <=? 13) || (28 <=? n) && (n <=? 32))%nat.

(** A string that is empty once trimmed. *)
Definition blank (s : string) : bool :=
  forallb is_space (list_ascii_of_string s).

(** A keyword the search loop keeps: a non-empty string. *)
Definition nonempty (s : string) : bool := negb (String.eqb s "").

(** The two LIKE clauses of one keyword. *)
Definition like_clauses (kw : string) : list string :=
  ["short_descriptionLIKE" +:+ kw; "descriptionLIKE" +:+ kw].

(** The values of an optional filter that take part in the query: a given,
    non-empty string. *)
Definition present (v : option string) : list string :=
  match v with
  | Some s => if String.eqb s "" then [] else [s]
  | None => []
  end.

(** [s] has the character [c] somewhere. *)
Fixpoint has_char (c : ascii) (s : string) : bool :=
  match s with
  | EmptyString => false
  | String a s' => Ascii.eqb a c || has_char c s'
  end.

(** The number of AND separators of an encoded query: the carets that do
    not start an [^OR]. *)
Fixpoint and_separators (s : string) : nat :=
  match s with
  | EmptyString => 0%nat
  | String "^" (String "O" (String "R" s')) => and_separators s'
  | String "^" s' => S (and_separators s')
  | String _ s' => and_separators s'
  end.

(** What the [except requests.RequestException] clause of an operation
    makes of an exception raised in its [try] block after the trace [tr]:
    a [RequestException] is logged and turned into the envelope, any other
    exception goes on to the caller. *)
Definition caught {A} (prefix : string) (envelope : exn → A) (e : exn)
    (tr : list event) : result A * list event :=
  if is_RequestException e
  then (inr (envelope e), tr ++ [LogError (prefix +:+ exn_str e)])
  else (inl e, tr).

(** The request an operation sends. *)
Definition table_request (config : ServerConfig)
    (headers : gmap string string) (query_params : gmap string pyval)
    : Request :=
  {| req_url := api_url config +:+ "/table/problem";
     req_params := query_params;
     req_headers := headers;
     req_timeout := timeout config |}.

(** What every request to the table API has: the problem table as target,
    display values on, reference links off. *)
Definition well_formed_request (config : ServerConfig) (r : Request) : Prop :=
  req_url r = api_url config +:+ "/table/problem"
  ∧ req_params r !! "sysparm_display_value" = Some (PStr "true")
  ∧ req_params r !! "sysparm_exclude_reference_link" = Some (PStr "true").

(** A normalized problem record [out] of the raw record [rec]: exactly the
    declared keys, [assigned_to] collapsed to its display value, every
    other field passed through. *)
Definition normalized (rec out : gmap string pyval) : Prop :=
  dom out = list_to_set problem_keys
  ∧ out !! "assigned_to" = Some (display (rec !! "assigned_to"))
  ∧ ∀ k, k ∈ problem_keys → k ≠ "assigned_to" →
      out !! k = Some (passed (rec !! raw_name k)).

(** The envelope of a successful listing. *)
Definition found_envelope (problems : list pyval) : pyval :=
  PDict (dict [
    ("success", PBool true);
    ("message", PStr ("Found " +:+ pretty (length problems) +:+ " problems"));
    ("problems", PList problems)]).

(** The envelope of a successful lookup of [number]. *)
Definition problem_envelope (number : string) (problem : pyval) : pyval :=
  PDict (dict [
    ("success", PBool true);
    ("message", PStr ("Problem " +:+ number +:+ " found"));
    ("problem", problem)]).

(** ** Concrete inputs

    The fixtures of tests/test_problem_tools.py, and a few more. *)

Definition test_config : ServerConfig :=
  {| api_url := "https://dev12345.service-now.com/api/now"; timeout := 30 |}.

Definition test_headers : gmap string string :=
  {[ "Authorization" := "Bearer FAKE" ]}.

Definition test_auth : AuthManager :=
  {| get_headers := inr test_headers |}.

(** The record of [test_list_problems_success]. *)
Definition test_record : gmap string pyval :=
  dict [
    ("sys_id", PStr "abc123");
    ("number", PStr "PRB0010001");
    ("short_description", PStr "Email outage");
    ("description", PStr "Users cannot send email");
    ("state", PStr "1");
    ("priority", PStr "1 - Critical");
    ("assigned_to", PDict (dict [("display_value", PStr "Jane Admin")]));
    ("category", PStr "Software");
    ("subcategory", PStr "Email");
    ("sys_created_on", PStr "2025-06-25 10:00:00");
    ("sys_updated_on", PStr "2025-06-26 09:00:00")].

(** A record whose [state] arrives as a structured object. *)
Definition structured_state_record : gmap string pyval :=
  dict [
    ("number", PStr "PRB0010001");
    ("state", PDict (dict [("display_value", PStr "New")]))].

(** A response with the given status whose body decodes to [v]. *)
Definition json_response (status : Z) (v : pyval) : Response :=
  {| status_code := status; reason := "";
     url := "https://dev12345.service-now.com/api/now/table/problem";
     body := inr v |}.

(** The body [{"result": [...]}]. *)
Definition result_body (records : list pyval) : gmap string pyval :=
  dict [("result", PList records)].

(** A remote side that answers every request with [resp]. *)
Definition responding (resp : Response) : World := λ _, Responds resp.

(** A remote side that cannot be reached. *)
Definition unreachable : World :=
  λ _, Raises (Exn ConnectionError "Connection refused").

(** [ListProblemsParams(limit=5, query="email")], of the tests. *)
Definition test_list_params : ListProblemsParams.t :=
  {| ListProblemsParams.limit := 5; ListProblemsParams.offset := 0;
     ListProblemsParams.state := None;
     ListProblemsParams.assigned_to := None;
     ListProblemsParams.category := None;
     ListProblemsParams.query := Some "email" |}.

(** [GetProblemByNumberParams(problem_number=n)]. *)
Definition number_params (n : string) : GetProblemByNumberParams.t :=
  {| GetProblemByNumberParams.problem_number := n |}.

(** [SearchProblemsParams(keywords=kws, limit=3)]. *)
Definition keyword_params (kws : list string) : SearchProblemsParams.t :=
  {| SearchProblemsParams.keywords := kws;
     SearchProblemsParams.limit := 3;
     SearchProblemsParams.offset := 0 |}.

(** The rule of C1 as it is worded, for every field: a structured value is
    collapsed to its display value. *)
Definition collapsed_everywhere (rec out : gmap string pyval) : Prop :=
  ∀ k, k ∈ problem_keys → out !! k = Some (display (rec !! raw_name k)).

(** The envelope of a failed listing or search. *)
Definition failed_list_envelope (action cause : string) : pyval :=
  PDict (dict [
    ("success", PBool false);
    ("message", PStr ("Failed to " +:+ action +:+ ": " +:+ cause));
    ("problems", PList [])]).

(** The envelope of a failed lookup: it has no payload key. *)
Definition failed_lookup_envelope (action cause : string) : pyval :=
  PDict (dict [
    ("success", PBool false);
    ("message", PStr ("Failed to " +:+ action +:+ ": " +:+ cause))]).

(** A response that was redirected nowhere: status 300. *)
Definition multiple_choices (v : pyval) : Response := json_response 300 v.

(** A 503 whose body is not JSON. *)
Definition unavailable_response : Response :=
  {| status_code := 503; reason := "Service Unavailable";
     url := "https://dev12345.service-now.com/api/now/table/problem";
     body := inl "Expecting value: line 1 column 1 (char 0)" |}.

(** A 200 whose body is not JSON. *)
Definition garbled_response : Response :=
  {| status_code := 200; reason := "OK";
     url := "https://dev12345.service-now.com/api/now/table/problem";
     body := inl "Expecting value: line 1 column 1 (char 0)" |}.

Definition unavailable : World := responding unavailable_response.
Definition garbled : World := responding garbled_response.

(** An optional filter with the empty string read as "not given". *)
Definition drop_empty (v : option string) : option string :=
  match v with
  | Some s => if String.eqb s "" then None else Some s
  | None => None
  end.

(** The parameters with every empty text filter read as "not given". *)
Definition without_empty (params : ListProblemsParams.t)
    : ListProblemsParams.t :=
  {| ListProblemsParams.limit := ListProblemsParams.limit params;
     ListProblemsParams.offset := ListProblemsParams.offset params;
     ListProblemsParams.state := drop_empty (ListProblemsParams.state params);
     ListProblemsParams.assigned_to :=
       drop_empty (ListProblemsParams.assigned_to params);
     ListProblemsParams.category :=
       drop_empty (ListProblemsParams.category params);
     ListProblemsParams.query :=
       drop_empty (ListProblemsParams.query params) |}.

(** The equality clauses of the filters that are present, in the order
    state, assigned_to, category. *)
Definition equality_clauses (params : ListProblemsParams.t) : list string :=
  ((λ v, "state=" +:+ v) <$> present (ListProblemsParams.state params))
  ++ ((λ v, "assigned_to=" +:+ v)
        <$> present (ListProblemsParams.assigned_to params))
  ++ ((λ v, "category=" +:+ v)
        <$> present (ListProblemsParams.category params)).

(** The clause of the free-text query, when it is present. *)
Definition text_clause (params : ListProblemsParams.t) : list string :=
  (λ q, "short_descriptionLIKE" +:+ q +:+ "^ORdescriptionLIKE" +:+ q)
    <$> present (ListProblemsParams.query params).

(** The query parameters of an unfiltered listing. *)
Definition unfiltered_params (limit offset : Z) : gmap string pyval :=
  dict [
    ("sysparm_limit", PInt limit);
    ("sysparm_offset", PInt offset);
    ("sysparm_display_value", PStr "true");
    ("sysparm_exclude_reference_link", PStr "true")].

(** [ListProblemsParams(state="", assigned_to="", category="", query="")]. *)
Definition empty_text_params : ListProblemsParams.t :=
  {| ListProblemsParams.limit := 10; ListProblemsParams.offset := 0;
     ListProblemsParams.state := Some "";
     ListProblemsParams.assigned_to := Some "";
     ListProblemsParams.category := Some "";
     ListProblemsParams.query := Some "" |}.

(** [ListProblemsParams(state="1", category="Software", query="email")]. *)
Definition filtered_params : ListProblemsParams.t :=
  {| ListProblemsParams.limit := 10; ListProblemsParams.offset := 0;
     ListProblemsParams.state := Some "1";
     ListProblemsParams.assigned_to := None;
     ListProblemsParams.category := Some "Software";
     ListProblemsParams.query := Some "email" |}.

(** ** More vocabulary: traces, shapes, compact records *)

(** The messages logged in a trace, in order. *)
Definition log_messages (tr : list event) : list string :=
  omap (λ ev, match ev with LogError m => Some m | HttpGet _ => None end) tr.

(** The keys of a compact search record. *)
Definition compact_keys : list string :=
  ["sys_id"; "number"; "short_description"; "state"; "priority";
   "created_on"; "updated_on"].

(** A compact record [out] of the raw record [rec]: exactly the compact
    keys, each passed through from its raw field. *)
Definition compact (rec out : gmap string pyval) : Prop :=
  dom out = list_to_set compact_keys
  ∧ ∀ k, k ∈ compact_keys → out !! k = Some (passed (rec !! raw_name k)).

(** A JSON value that is neither text nor a container: [null], a boolean
    or a number. *)
Definition scalar (v : pyval) : bool :=
  match v with
  | PNone | PBool _ | PInt _ | PFloat _ => true
  | _ => false
  end.

(** The envelope of a successful search. *)
Definition matching_envelope (problems : list pyval) : pyval :=
  PDict (dict [
    ("success", PBool true);
    ("message", PStr ("Found " +:+ pretty (length problems)
                      +:+ " problems matching keywords"));
    ("problems", PList problems)]).

(** The envelope of a lookup that found nothing. *)
Definition not_found_envelope (number : string) : pyval :=
  PDict (dict [
    ("success", PBool false);
    ("message", PStr ("Problem not found: " +:+ number))]).

(** An authentication manager whose [get_headers] raises [e]. *)
Definition failing_auth (e : exn) : AuthManager :=
  {| get_headers := inl e |}.

(** A second record, as [search_problems] gets them. *)
Definition test_search_record : gmap string pyval :=
  dict [
    ("sys_id", PStr "abc123");
    ("number", PStr "PRB0010002");
    ("short_description", PStr "Windows update issue");
    ("state", PStr "2");
    ("priority", PStr "3 - Moderate");
    ("sys_created_on", PStr "2025-06-20 10:00:00");
    ("sys_updated_on", PStr "2025-06-21 09:00:00")].

(** A problem record with every declared key. *)
Definition full_record (p : pyval) : Prop :=
  ∃ out, p = PDict out ∧ dom out = list_to_set problem_keys.

(** A compact record with every compact key. *)
Definition full_compact (p : pyval) : Prop :=
  ∃ out, p = PDict out ∧ dom out = list_to_set compact_keys.

(** What an envelope says under the key [success]. *)
Definition success_of (v : pyval) : option pyval :=
  match v with PDict d => d !! "success" | _ => None end.

(** The payload of a list envelope. *)
Definition problems_of (v : pyval) : option pyval :=
  match v with PDict d => d !! "problems" | _ => None end.

(** The payload of a lookup envelope. *)
Definition problem_of (v : pyval) : option pyval :=
  match v with PDict d => d !! "problem" | _ => None end.

(** The record of [test_list_problems_success] as the operations give it
    back. *)
Definition normalized_test_record : pyval :=
  PDict (dict [
    ("sys_id", PStr "abc123");
    ("number", PStr "PRB0010001");
    ("short_description", PStr "Email outage");
    ("description", PStr "Users cannot send email");
    ("state", PStr "1");
    ("priority", PStr "1 - Critical");
    ("assigned_to", PStr "Jane Admin");
    ("category", PStr "Software");
    ("subcategory", PStr "Email");
    ("created_on", PStr "2025-06-25 10:00:00");
    ("updated_on", PStr "2025-06-26 09:00:00")]).

(** * The command-line script [search_articles.py]

    The script reads its settings from the environment, builds the
    configuration objects and runs one article search for the keywords given
    on the command line.  The configuration classes, the authentication
    manager and the article search itself live in modules of the package
    that are not part of this development: they are the fields of one
    interface, [Collaborators], and nothing is assumed of them but their
    signatures. *)

Module SearchArticles.

(** [os.environ]. *)
Definition Environ : Type := gmap string string.

(** [os.getenv(key)]. *)
Definition getenv (environ : Environ) (key : string) : option string :=
  environ !! key.

(** [a or b] for two [Optional[str]]: [a] when it is truthy, else [b]. *)
Definition or_else (a b : option string) : option string :=
  if truthy_opt a then a else b.

(** [a or "text"]. *)
Definition or_str (a : option string) (b : string) : string :=
  match a with
  | Some s => if String.eqb s "" then b else s
  | None => b
  end.

(** The [str] that an [Optional[str]] is when the test [if not v] fails. *)
Definition truthy_str (v : option string) : option string :=
  match v with
  | Some s => if String.eqb s "" then None else Some s
  | None => None
  end.

(** [str.lower()], within ASCII. *)
Definition lower_char (c : ascii) : ascii :=
  let n := nat_of_ascii c in
  if ((65 <=? n) && (n <=? 90))%nat then ascii_of_nat (n + 32) else c.

Fixpoint lower (s : string) : string :=
  match s with
  | EmptyString => EmptyString
  | String c s' => String (lower_char c) (lower s')
  end.

(** [s.isascii()]. *)
Definition isascii (s : string) : bool :=
  forallb (λ c, (nat_of_ascii c <? 128)%nat) (list_ascii_of_string s).

(** The members of [AuthType] that the script names. *)
Inductive AuthType : Type := BASIC | OAUTH | API_KEY.

(** What the script raises: the [RuntimeError] of its own, or whatever a
    collaborator raised. *)
Inductive error : Type :=
| RuntimeError (msg : string)
| Raised (e : exn).

#[local] Instance error_ret : MRet (sum error) := λ A x, inr x.
#[local] Instance error_bind : MBind (sum error) := λ A B f m,
  match m with inl e => inl e | inr x => f x end.

(** A call into a collaborator: its exception is the script's. *)
Definition raised {A} (r : result A) : error + A :=
  match r with inl e => inl (Raised e) | inr x => inr x end.

(** The classes and functions the script imports: each constructor call and
    each function call returns or raises. *)
Class Collaborators : Type := {
  basic_t : Type;
  oauth_t : Type;
  api_key_t : Type;
  auth_config_t : Type;
  server_config_t : Type;
  auth_manager_t : Type;
  params_t : Type;
  (** [BasicAuthConfig(username=..., password=...)]. *)
  BasicAuthConfig : option string → option string → result basic_t;
  (** [OAuthConfig(client_id=..., client_secret=..., username=...,
      password=..., token_url=...)]. *)
  OAuthConfig : option string → option string → option string →
                option string → option string → result oauth_t;
  (** [ApiKeyConfig(api_key=..., header_name=...)]. *)
  ApiKeyConfig : option string → string → result api_key_t;
  (** [AuthConfig(type=..., basic=..., oauth=..., api_key=...)]. *)
  AuthConfig : AuthType → option basic_t → option oauth_t →
               option api_key_t → result auth_config_t;
  (** [ServerConfig(instance_url=..., auth=..., timeout=...)] and the two
      attributes read back from it. *)
  ServerConfig : string → auth_config_t → Z → result server_config_t;
  server_auth : server_config_t → auth_config_t;
  server_instance_url : server_config_t → string;
  (** [AuthManager(auth_config, instance_url)]. *)
  AuthManager : auth_config_t → string → result auth_manager_t;
  (** [SearchArticlesParams(keywords=..., limit=..., offset=...)]. *)
  SearchArticlesParams : list string → Z → Z → result params_t;
  (** [search_articles(config, auth_manager, params)]: what the call comes
      to. *)
  search_articles : server_config_t → auth_manager_t → params_t →
                    result pyval;
  (** [json.dumps(obj, indent=...)]. *)
  json_dumps : pyval → Z → result string
}.

Section Script.

Context `{Collaborators}.

(** [build_auth_config()] (lines 29-62). *)
Definition build_auth_config (environ : Environ) : error + auth_config_t :=
  let auth_type :=
    lower (or_str (or_else (getenv environ "SERVICENOW_AUTH_TYPE")
                      (getenv environ "AUTH_TYPE")) "basic") in
  if String.eqb auth_type "basic" then
    basic ← raised (BasicAuthConfig
               (or_else (getenv environ "SERVICENOW_USERNAME")
                  (getenv environ "USERNAME"))
               (or_else (getenv environ "SERVICENOW_PASSWORD")
                  (getenv environ "PASSWORD")));
    raised (AuthConfig BASIC (Some basic) None None)
  else if String.eqb auth_type "oauth" then
    oauth ← raised (OAuthConfig
               (or_else (getenv environ "SERVICENOW_CLIENT_ID")
                  (getenv environ "CLIENT_ID"))
               (or_else (getenv environ "SERVICENOW_CLIENT_SECRET")
                  (getenv environ "CLIENT_SECRET"))
               (or_else (getenv environ "SERVICENOW_USERNAME")
                  (getenv environ "USERNAME"))
               (or_else (getenv environ "SERVICENOW_PASSWORD")
                  (getenv environ "PASSWORD"))
               (getenv environ "SERVICENOW_TOKEN_URL"));
    raised (AuthConfig OAUTH None (Some oauth) None)
  else if String.eqb auth_type "api_key" then
    api_key ← raised (ApiKeyConfig
                 (or_else (getenv environ "SERVICENOW_API_KEY")
                    (getenv environ "API_KEY"))
                 (or_str (getenv environ "SERVICENOW_API_KEY_HEADER")
                    "X-ServiceNow-API-Key"));
    raised (AuthConfig API_KEY None None (Some api_key))
  else
    inl (RuntimeError ("Unsupported AUTH_TYPE: " +:+ auth_type)).

(** What a run of the script does that can be seen from outside: a line
    printed to one of the two streams, and the one call that goes to the
    network. *)
Inductive stream : Type := stdout | stderr.

Inductive action : Type :=
| Print (file : stream) (text : string)
| SearchArticles (config : server_config_t) (auth : auth_manager_t)
    (params : params_t).

(** A computation extends the trace of actions (oldest first) and returns
    or raises. *)
Definition Script (A : Type) : Type :=
  list action → (error + A) * list action.

#[local] Instance script_ret : MRet Script := λ A x tr, (inr x, tr).
#[local] Instance script_bind : MBind Script := λ A B f m tr,
  match m tr with
  | (inl e, tr') => (inl e, tr')
  | (inr x, tr') => f x tr'
  end.

(** Code without visible action. *)
Definition quiet {A} (r : error + A) : Script A := λ tr, (r, tr).

(** [print(text, file=...)]. *)
Definition print (file : stream) (text : string) : Script unit := λ tr,
  (inr tt, tr ++ [Print file text]).

(** The call [search_articles(config, auth, params)]. *)
Definition call_search_articles (config : server_config_t)
    (auth : auth_manager_t) (params : params_t)
    : Script pyval := λ tr,
  (raised (search_articles config auth params),
   tr ++ [SearchArticles config auth params]).

(** [main(argv)] (lines 65-87). *)
Definition main (environ : Environ) (argv : list string) : Script Z :=
  if (length argv <? 2)%nat then
    print stderr
      "Usage: python3 search_articles.py <keyword1> [keyword2 ...]";;
    mret 2
  else
    let instance_url :=
      or_else (getenv environ "SERVICENOW_INSTANCE_URL")
        (getenv environ "INSTANCE_URL") in
    match truthy_str instance_url with
    | None =>
        print stderr
          "Missing SERVICENOW_INSTANCE_URL (or INSTANCE_URL) in environment.";;
        mret 2
    | Some instance_url =>
        auth_config ← quiet (build_auth_config environ);
        server_config ← quiet (raised (ServerConfig instance_url
                                         auth_config 30));
        auth ← quiet (raised (AuthManager (server_auth server_config)
                                (server_instance_url server_config)));
        let keywords := tail argv in
        params ← quiet (raised (SearchArticlesParams keywords 20 0));
        result ← call_search_articles server_config auth params;
        text ← quiet (raised (json_dumps result 2));
        print stdout text;;
        success ← quiet (raised (get result "success" PNone));
        mret (if truthy success then 0 else 1)
    end.

(** A run of the script from an empty trace:
    [raise SystemExit(main(sys.argv))]. *)
Definition run_main (environ : Environ) (argv : list string)
    : (error + Z) * list action :=
  main environ argv [].


(** The searches of a trace. *)
Definition searches (tr : list action)
    : list (server_config_t * auth_manager_t * params_t) :=
  omap (λ a, match a with
             | SearchArticles c m p => Some (c, m, p)
             | Print _ _ => None
             end) tr.

End Script.

(** The instance URL that the script settles on. *)
Definition instance_url (environ : Environ) : option string :=
  truthy_str (or_else (getenv environ "SERVICENOW_INSTANCE_URL")
                (getenv environ "INSTANCE_URL")).

(** The authentication type as the environment gives it, before it is
    lowered. *)
Definition auth_type (environ : Environ) : string :=
  or_str (or_else (getenv environ "SERVICENOW_AUTH_TYPE")
            (getenv environ "AUTH_TYPE")) "basic".

(** The authentication types the script knows. *)
Definition supported : list string := ["basic"; "oauth"; "api_key"].

(** The variables for which an empty value counts as unset. *)
Definition empty_as_unset : list string :=
  ["SERVICENOW_INSTANCE_URL"; "INSTANCE_URL"; "SERVICENOW_AUTH_TYPE";
   "AUTH_TYPE"; "SERVICENOW_USERNAME"; "SERVICENOW_PASSWORD";
   "SERVICENOW_CLIENT_ID"; "SERVICENOW_CLIENT_SECRET"; "SERVICENOW_API_KEY";
   "SERVICENOW_API_KEY_HEADER"].

(** The variables that have a fallback: the prefixed name, and the plain
    name that is read when the prefixed one is unset or empty. *)
Definition fallbacks : list (string * string) :=
  [("SERVICENOW_INSTANCE_URL", "INSTANCE_URL");
   ("SERVICENOW_AUTH_TYPE", "AUTH_TYPE");
   ("SERVICENOW_USERNAME", "USERNAME");
   ("SERVICENOW_PASSWORD", "PASSWORD");
   ("SERVICENOW_CLIENT_ID", "CLIENT_ID");
   ("SERVICENOW_CLIENT_SECRET", "CLIENT_SECRET");
   ("SERVICENOW_API_KEY", "API_KEY")].


(** What the script makes of the environment: every value that
    [build_auth_config] and [main] go on with. *)
Definition settings (environ : Environ)
    : list (option string) :=
  [instance_url environ;
   Some (lower (auth_type environ));
   or_else (getenv environ "SERVICENOW_USERNAME") (getenv environ "USERNAME");
   or_else (getenv environ "SERVICENOW_PASSWORD") (getenv environ "PASSWORD");
   or_else (getenv environ "SERVICENOW_CLIENT_ID")
     (getenv environ "CLIENT_ID");
   or_else (getenv environ "SERVICENOW_CLIENT_SECRET")
     (getenv environ "CLIENT_SECRET");
   getenv environ "SERVICENOW_TOKEN_URL";
   or_else (getenv environ "SERVICENOW_API_KEY") (getenv environ "API_KEY");
   Some (or_str (getenv environ "SERVICENOW_API_KEY_HEADER")
           "X-ServiceNow-API-Key")].

(** A stand-in for the package, as a unit test would stub it: every
    constructor keeps its arguments, and the search answers with a fixed
    envelope. *)
Definition stub_envelope : pyval :=
  PDict (dict [("success", PBool true); ("articles", PList [])]).

#[local] Instance stub : Collaborators := {|
  basic_t := option string * option string;
  oauth_t := unit;
  api_key_t := option string * string;
  auth_config_t := AuthType;
  server_config_t := string * AuthType * Z;
  auth_manager_t := AuthType * string;
  params_t := list string * Z * Z;
  BasicAuthConfig u p := inr (u, p);
  OAuthConfig _ _ _ _ _ := inr tt;
  ApiKeyConfig k h := inr (k, h);
  AuthConfig t _ _ _ := inr t;
  ServerConfig url auth timeout := inr (url, auth, timeout);
  server_auth c := c.1.2;
  server_instance_url c := c.1.1;
  AuthManager a url := inr (a, url);
  SearchArticlesParams kws limit offset := inr (kws, limit, offset);
  search_articles _ _ _ := inr stub_envelope;
  json_dumps _ _ := inr "{...}"
|}.

(** What the stand-in builds for the instance of the tests and the one
    keyword [vpn]. *)
Definition stub_server : @server_config_t stub :=
  ("https://dev12345.service-now.com", BASIC, 30).

Definition stub_manager : @auth_manager_t stub :=
  (BASIC, "https://dev12345.service-now.com").

Definition stub_params : @params_t stub := (["vpn"], 20, 0).

(** The two messages of [main]. *)
Definition usage : string :=
  "Usage: python3 search_articles.py <keyword1> [keyword2 ...]".

Definition missing_instance_url : string :=
  "Missing SERVICENOW_INSTANCE_URL (or INSTANCE_URL) in environment.".

(** An environment with an instance and nothing else. *)
Definition test_environ : Environ :=
  {[ "SERVICENOW_INSTANCE_URL" := "https://dev12345.service-now.com" ]}.

End SearchArticles.

(** * Properties *)

(** ** The shape the three operations share

    One [try] block that gets the headers, sends one GET to the problem
    table and works on the response, under one
    [except requests.RequestException] clause that logs and answers with a
    failure envelope. *)

Section Guarded.

Context {A : Type}.
Variables (config : ServerConfig) (gh : result (gmap string string))
  (qp : gmap string pyval) (post : Response → result A)
  (prefix : string) (envelope : exn → A).

Lemma guarded_run (w : World) :
  run (try_except
         (headers ← lift gh;
          response ← requests_get (api_url config +:+ "/table/problem") qp
                       headers (timeout config);
          lift (post response))
         is_RequestException
         (λ e, logger_error (prefix +:+ exn_str e);; mret (envelope e))) w
  = match gh with
    | inl e => caught prefix envelope e []
    | inr h =>
        let r := table_request config h qp in
        match w r with
        | Raises e => caught prefix envelope e [HttpGet r]
        | Responds resp =>
            match post resp with
            | inl e => caught prefix envelope e [HttpGet r]
            | inr x => (inr x, [HttpGet r])
            end
        end
    end.
Proof.
  unfold run, try_except, caught, requests_get, lift, logger_error.
  unfold mbind, tool_bind, mret, tool_ret.
  destruct gh as [e|h]; [by destruct (is_RequestException e)|].
  cbn. fold (table_request config h qp).
  destruct (w (table_request config h qp)) as [e|resp].
  - by destruct (is_RequestException e).
  - destruct (post resp) as [e|x]; [|done].
    by destruct (is_RequestException e).
Qed.

Lemma caught_requests (e : exn) (tr : list event) :
  http_requests (snd (caught prefix envelope e tr)) = http_requests tr.
Proof.
  unfold caught, http_requests. destruct (is_RequestException e); [|done].
  cbn [snd]. rewrite omap_app. cbn. by rewrite app_nil_r.
Qed.

Lemma caught_not_request_exception (e e' : exn) (tr : list event) :
  fst (caught prefix envelope e tr) = inl e' →
  is_RequestException e' = false.
Proof.
  unfold caught. destruct (is_RequestException e) eqn:He; cbn; [done|].
  by intros [= <-].
Qed.

Lemma caught_request_exception (e : exn) (tr : list event) :
  is_RequestException e = true →
  caught prefix envelope e tr
  = (inr (envelope e), tr ++ [LogError (prefix +:+ exn_str e)]).
Proof. unfold caught. by intros ->. Qed.

(** The requests an operation of this shape sends: the one request, once
    the headers are there. *)
Lemma guarded_requests (w : World) :
  http_requests (snd (run (try_except
         (headers ← lift gh;
          response ← requests_get (api_url config +:+ "/table/problem") qp
                       headers (timeout config);
          lift (post response))
         is_RequestException
         (λ e, logger_error (prefix +:+ exn_str e);; mret (envelope e))) w))
  = match gh with
    | inl _ => []
    | inr h => [table_request config h qp]
    end.
Proof.
  rewrite guarded_run. destruct gh as [e|h]; [by rewrite caught_requests|].
  cbn zeta. destruct (w _) as [e|resp]; [by rewrite caught_requests|].
  destruct (post resp); [by rewrite caught_requests|done].
Qed.

(** No operation of this shape lets a [RequestException] through. *)
Lemma guarded_no_request_exception (w : World) (e : exn) :
  fst (run (try_except
         (headers ← lift gh;
          response ← requests_get (api_url config +:+ "/table/problem") qp
                       headers (timeout config);
          lift (post response))
         is_RequestException
         (λ e, logger_error (prefix +:+ exn_str e);; mret (envelope e))) w)
  = inl e →
  is_RequestException e = false.
Proof.
  rewrite guarded_run. destruct gh as [e0|h].
  { apply caught_not_request_exception. }
  cbn zeta. destruct (w _) as [e0|resp].
  { apply caught_not_request_exception. }
  destruct (post resp); [apply caught_not_request_exception|done].
Qed.

End Guarded.

(** ** Failed exchanges *)

Lemma raise_for_status_class (r : Response) (e : exn) :
  raise_for_status r = inl e → is_RequestException e = true.
Proof.
  unfold raise_for_status.
  destruct (_ && _); [by intros [= <-]|].
  destruct (_ && _); [by intros [= <-]|done].
Qed.

Lemma error_status_raises (r : Response) :
  error_status r = true → ∃ e, raise_for_status r = inl e.
Proof.
  unfold error_status, raise_for_status. intros [H1 H2]%andb_prop.
  rewrite H1. cbn [andb].
  destruct (status_code r <? 500) eqn:E; [by eexists|].
  destruct (500 <=? status_code r) eqn:E'.
  - rewrite H2. by eexists.
  - apply Z.ltb_ge in E. apply Z.leb_gt in E'. lia.
Qed.

Lemma no_error_status_passes (r : Response) :
  error_status r = false → raise_for_status r = inr tt.
Proof.
  unfold error_status, raise_for_status. intros H.
  destruct (400 <=? status_code r) eqn:E1; cbn [andb] in *.
  - rewrite H. apply Z.ltb_ge in H.
    destruct (status_code r <? 500) eqn:E2; [apply Z.ltb_lt in E2; lia|].
    by rewrite andb_false_r.
  - apply Z.leb_gt in E1.
    destruct (500 <=? status_code r) eqn:E3; [apply Z.leb_le in E3; lia|].
    done.
Qed.

(** A failed exchange raises a [RequestException] in the [try] block,
    whose text is the cause. *)
Lemma transport_failure_raises {A} (o : outcome) (cause : string)
    (rest : pyval → result A) :
  transport_failure o cause →
  ∃ e, is_RequestException e = true ∧ exn_str e = cause
    ∧ match o with
      | Raises e0 => inl e0
      | Responds resp =>
          raise_for_status resp;; data ← json resp; rest data
      end = inl e.
Proof.
  destruct 1 as [e He|r e Hs Hr|r msg Hs Hb].
  - by exists e.
  - exists e. split; [by eapply raise_for_status_class|].
    split; [done|]. by rewrite Hr.
  - exists (Exn JSONDecodeError msg). split; [done|]. split; [done|].
    rewrite (no_error_status_passes _ Hs). unfold json. by rewrite Hb.
Qed.

Lemma guarded_failure {A} (config : ServerConfig)
    (gh : result (gmap string string)) (qp : gmap string pyval)
    (post : Response → result A) (prefix : string) (envelope : exn → A)
    (w : World) (h : gmap string string) (e : exn) :
  gh = inr h →
  match w (table_request config h qp) with
  | Raises e0 => inl e0
  | Responds resp => post resp
  end = inl e →
  is_RequestException e = true →
  run (try_except
         (headers ← lift gh;
          response ← requests_get (api_url config +:+ "/table/problem") qp
                       headers (timeout config);
          lift (post response))
         is_RequestException
         (λ e, logger_error (prefix +:+ exn_str e);; mret (envelope e))) w
  = (inr (envelope e),
     [HttpGet (table_request config h qp);
      LogError (prefix +:+ exn_str e)]).
Proof.
  intros -> Hx He. rewrite guarded_run. cbn zeta.
  destruct (w _) as [e0|resp].
  - injection Hx as ->. by rewrite caught_request_exception.
  - rewrite Hx. by rewrite caught_request_exception.
Qed.

(** The shape of the three operations on a failed exchange. *)
Lemma guarded_transport_failure {A} (config : ServerConfig)
    (gh : result (gmap string string)) (qp : gmap string pyval)
    (rest : pyval → result A) (prefix : string) (envelope : exn → A)
    (w : World) (h : gmap string string) (cause : string) :
  gh = inr h →
  transport_failure (w (table_request config h qp)) cause →
  ∃ e, exn_str e = cause
    ∧ run (try_except
         (headers ← lift gh;
          response ← requests_get (api_url config +:+ "/table/problem") qp
                       headers (timeout config);
          lift (raise_for_status response;;
                data ← json response;
                rest data))
         is_RequestException
         (λ e, logger_error (prefix +:+ exn_str e);; mret (envelope e))) w
      = (inr (envelope e),
         [HttpGet (table_request config h qp);
          LogError (prefix +:+ cause)]).
Proof.
  intros Hgh Hf.
  destruct (transport_failure_raises _ _ rest Hf) as (e & He & <- & Hx).
  exists e. split; [done|].
  by apply (guarded_failure config gh qp
    (λ resp, raise_for_status resp;; data ← json resp; rest data)).
Qed.

(** ** Working on a body *)

Lemma success_not_error (r : Response) :
  success_status r = true → error_status r = false.
Proof.
  unfold success_status, error_status. intros [H1 H2]%andb_prop.
  apply Z.leb_le in H1. apply Z.ltb_lt in H2.
  apply andb_false_iff. left. apply Z.leb_gt. lia.
Qed.

(** What the statements after [response.json()] can raise is no
    [RequestException]. *)
Lemma get_raises (v : pyval) (k : string) (d : pyval) (e : exn) :
  get v k d = inl e → is_RequestException e = false.
Proof. by destruct v; intros [= <-]. Qed.

Lemma iter_raises (v : pyval) (e : exn) :
  iter v = inl e → is_RequestException e = false.
Proof. by destruct v; intros [= <-]. Qed.

Lemma index0_raises (v : pyval) (e : exn) :
  index0 v = inl e → is_RequestException e = false.
Proof.
  destruct v as [| | | |s|l|d]; try (by intros [= <-]).
  - by destruct s; intros [= <-].
  - by destruct l; intros [= <-].
Qed.

Lemma normalize_problem_raises (x : pyval) (e : exn) :
  normalize_problem x = inl e → is_RequestException e = false.
Proof.
  destruct x as [| | | | | |rec]; [by intros [= <-]..|].
  unfold normalize_problem. cbn [get mbind result_bind].
  by destruct (default PNone (rec !! "assigned_to")).
Qed.

Lemma normalize_compact_raises (x : pyval) (e : exn) :
  normalize_compact x = inl e → is_RequestException e = false.
Proof. by destruct x as [| | | | | |rec]; [intros [= <-]..|]. Qed.

Lemma mapM_raises (f : pyval → result pyval) (xs : list pyval) (e : exn) :
  (∀ x e, f x = inl e → is_RequestException e = false) →
  mapM f xs = inl e → is_RequestException e = false.
Proof.
  intros Hf. induction xs as [|x xs IH]; [done|].
  change (mapM f (x :: xs)) with (y ← f x; k ← mapM f xs; mret (y :: k)).
  destruct (f x) as [e'|y] eqn:Hy.
  - intros [= <-]. by eapply Hf.
  - cbn [mbind result_bind]. destruct (mapM f xs) as [e'|k]; [|done].
    intros [= <-]. by apply IH.
Qed.

(** The loop of [list_problems] and [search_problems]. *)
Lemma records_raise {A} (f : pyval → result pyval)
    (mk : list pyval → A) (data : pyval) (e : exn) :
  (∀ x e, f x = inl e → is_RequestException e = false) →
  (result ← get data "result" (PList []);
   recs ← iter result;
   problems ← mapM f recs;
   mret (mk problems)) = inl e →
  is_RequestException e = false.
Proof.
  intros Hf.
  destruct (get data "result" (PList [])) as [e'|result] eqn:Hg.
  { intros [= <-]. by eapply get_raises. }
  cbn [mbind result_bind].
  destruct (iter result) as [e'|recs] eqn:Hi.
  { intros [= <-]. by eapply iter_raises. }
  cbn [mbind result_bind].
  destruct (mapM f recs) as [e'|ps] eqn:Hm; [|done].
  intros [= <-]. by eapply mapM_raises.
Qed.

(** The statements of [get_problem_by_number] after [response.json()]. *)
Lemma first_record_raises {A} (none : A) (mk : pyval → A) (data : pyval)
    (e : exn) :
  (result ← get data "result" (PList []);
   if negb (truthy result) then mret none
   else rec ← index0 result;
        problem ← normalize_problem rec;
        mret (mk problem)) = inl e →
  is_RequestException e = false.
Proof.
  destruct (get data "result" (PList [])) as [e'|result] eqn:Hg.
  { intros [= <-]. by eapply get_raises. }
  cbn [mbind result_bind].
  destruct (negb (truthy result)); [done|].
  destruct (index0 result) as [e'|rec] eqn:Hi.
  { intros [= <-]. by eapply index0_raises. }
  cbn [mbind result_bind].
  destruct (normalize_problem rec) as [e'|p] eqn:Hn; [|done].
  intros [= <-]. by eapply normalize_problem_raises.
Qed.

(** A response without an error status whose body is JSON: the run is the
    work on the body, after the one request; the status plays no part, and
    nothing is logged. *)
Lemma guarded_body {A} (config : ServerConfig)
    (gh : result (gmap string string)) (qp : gmap string pyval)
    (rest : pyval → result A) (prefix : string) (envelope : exn → A)
    (w : World) (h : gmap string string) (resp : Response) (v : pyval) :
  gh = inr h →
  w (table_request config h qp) = Responds resp →
  error_status resp = false →
  body resp = inr v →
  (∀ e, rest v = inl e → is_RequestException e = false) →
  run (try_except
         (headers ← lift gh;
          response ← requests_get (api_url config +:+ "/table/problem") qp
                       headers (timeout config);
          lift (raise_for_status response;;
                data ← json response;
                rest data))
         is_RequestException
         (λ e, logger_error (prefix +:+ exn_str e);; mret (envelope e))) w
  = (rest v, [HttpGet (table_request config h qp)]).
Proof.
  intros -> Hw Hst Hb Hrest. rewrite guarded_run. cbn zeta. rewrite Hw.
  rewrite (no_error_status_passes _ Hst). unfold json. rewrite Hb.
  cbn [mbind result_bind].
  destruct (rest v) as [e|x] eqn:Hr; [|done].
  unfold caught. by rewrite (Hrest e).
Qed.

(** ** Requests *)

Lemma list_problems_requests config auth params w :
  http_requests (snd (run (list_problems config auth params) w))
  = match get_headers auth with
    | inl _ => []
    | inr h => [table_request config h (list_query_params params)]
    end.
Proof. apply guarded_requests. Qed.

Lemma get_problem_by_number_requests config auth params w :
  http_requests (snd (run (get_problem_by_number config auth params) w))
  = match get_headers auth with
    | inl _ => []
    | inr h => [table_request config h (get_query_params params)]
    end.
Proof. apply guarded_requests. Qed.

Lemma search_problems_requests config auth params w :
  http_requests (snd (run (search_problems config auth params) w))
  = match get_headers auth,
          search_or_parts (SearchProblemsParams.keywords params) with
    | inr h, (_ :: _) as or_parts =>
        [table_request config h (search_query_params params or_parts)]
    | _, _ => []
    end.
Proof.
  unfold search_problems.
  destruct (SearchProblemsParams.keywords params) as [|kw kws] eqn:Hk.
  { cbn. by destruct (get_headers auth). }
  cbn [truthy fmap list_fmap length Nat.eqb negb].
  destruct (search_or_parts (kw :: kws)) as [|c cs] eqn:Hp.
  { cbn. by destruct (get_headers auth). }
  cbn [truthy fmap list_fmap length Nat.eqb negb].
  apply guarded_requests.
Qed.

Lemma list_query_params_flags params :
  list_query_params params !! "sysparm_display_value" = Some (PStr "true")
  ∧ list_query_params params !! "sysparm_exclude_reference_link"
    = Some (PStr "true").
Proof.
  unfold list_query_params, dict. cbn [foldl fst snd].
  destruct (truthy _); by simplify_map_eq.
Qed.

(** C9: every HTTP request that [list_problems], [get_problem_by_number] and
    [search_problems] issue targets [{api_url}/table/problem] and carries
    [sysparm_display_value=true] and [sysparm_exclude_reference_link=true]. *)
Theorem requests_well_formed (config : ServerConfig) (auth : AuthManager)
    (w : World) :
  (∀ params, Forall (well_formed_request config)
     (http_requests (snd (run (list_problems config auth params) w))))
  ∧ (∀ params, Forall (well_formed_request config)
     (http_requests (snd (run (get_problem_by_number config auth params) w))))
  ∧ (∀ params, Forall (well_formed_request config)
     (http_requests (snd (run (search_problems config auth params) w)))).
Proof.
  split; [|split]; intros params.
  - rewrite list_problems_requests. destruct (get_headers auth); [done|].
    constructor; [|done]. split; [done|]. apply list_query_params_flags.
  - rewrite get_problem_by_number_requests.
    destruct (get_headers auth); [done|].
    constructor; [|done]. by split.
  - rewrite search_problems_requests. destruct (get_headers auth); [done|].
    destruct (search_or_parts _); [done|].
    constructor; [|done]. by split.
Qed.

(** ** Normalization *)

Lemma normalize_problem_eq (rec : gmap string pyval) :
  normalize_problem (PDict rec)
  = inr (PDict (dict [
      ("sys_id", passed (rec !! "sys_id"));
      ("number", passed (rec !! "number"));
      ("short_description", passed (rec !! "short_description"));
      ("description", passed (rec !! "description"));
      ("state", passed (rec !! "state"));
      ("priority", passed (rec !! "priority"));
      ("assigned_to", display (rec !! "assigned_to"));
      ("category", passed (rec !! "category"));
      ("subcategory", passed (rec !! "subcategory"));
      ("created_on", passed (rec !! "sys_created_on"));
      ("updated_on", passed (rec !! "sys_updated_on"))])).
Proof.
  unfold normalize_problem, get, display, passed.
  destruct (rec !! "assigned_to") as [[]|]; reflexivity.
Qed.

Lemma normalize_problem_normalized (rec : gmap string pyval) :
  ∃ out, normalize_problem (PDict rec) = inr (PDict out) ∧ normalized rec out.
Proof.
  rewrite normalize_problem_eq. eexists. split; [reflexivity|].
  unfold dict. cbn [foldl fst snd]. split; [|split].
  - rewrite !dom_insert_L, dom_empty_L. unfold problem_keys. set_solver.
  - by simplify_map_eq.
  - intros k Hk Hne. unfold problem_keys in Hk.
    repeat (apply elem_of_cons in Hk as [->|Hk]);
      try done; try (by simplify_map_eq).
    by apply elem_of_nil in Hk.
Qed.

Lemma mapM_normalize_problem (recs : list (gmap string pyval)) :
  ∃ outs, mapM normalize_problem (PDict <$> recs) = inr (PDict <$> outs)
    ∧ Forall2 normalized recs outs.
Proof.
  induction recs as [|rec recs (outs & Heq & Hall)].
  - by exists [].
  - destruct (normalize_problem_normalized rec) as (out & Hout & Hn).
    exists (out :: outs). split; [|by constructor].
    change (mapM normalize_problem (PDict <$> rec :: recs))
      with (y ← normalize_problem (PDict rec);
            k ← mapM normalize_problem (PDict <$> recs);
            mret (y :: k)).
    by rewrite Hout, Heq.
Qed.

Lemma success_status_no_error (r : Response) :
  success_status r = true → raise_for_status r = inr tt.
Proof.
  unfold success_status, raise_for_status. intros [H1 H2]%andb_prop.
  apply Z.leb_le in H1. apply Z.ltb_lt in H2.
  destruct (400 <=? status_code r) eqn:E; [apply Z.leb_le in E; lia|].
  destruct (500 <=? status_code r) eqn:E'; [apply Z.leb_le in E'; lia|].
  reflexivity.
Qed.

(** C1, as the code has it: for every raw record of a successful
    [list_problems] or [get_problem_by_number] response, the normalized
    record has every declared key (so an absent field gives an explicit
    [None], never a missing key); [assigned_to] is collapsed to its
    [display_value] member when it is a structured object (to [None] when
    the object has no such member); every other field is passed through
    unchanged, whatever its shape. *)
Theorem normalized_records (config : ServerConfig) (auth : AuthManager)
    (w : World) (h : gmap string string) (resp : Response)
    (data : gmap string pyval) :
  get_headers auth = inr h →
  success_status resp = true →
  body resp = inr (PDict data) →
  (∀ params recs,
     w (table_request config h (list_query_params params)) = Responds resp →
     data !! "result" = Some (PList (PDict <$> recs)) →
     ∃ outs,
       fst (run (list_problems config auth params) w)
       = inr (found_envelope (PDict <$> outs))
       ∧ Forall2 normalized recs outs)
  ∧ (∀ params rec rest,
     w (table_request config h (get_query_params params)) = Responds resp →
     data !! "result" = Some (PList (PDict rec :: rest)) →
     ∃ out,
       fst (run (get_problem_by_number config auth params) w)
       = inr (problem_envelope
                (GetProblemByNumberParams.problem_number params) (PDict out))
       ∧ normalized rec out).
Proof.
  intros Hgh Hst%success_status_no_error Hbody. split.
  - intros params recs Hw Hres.
    destruct (mapM_normalize_problem recs) as (outs & Heq & Hall).
    exists outs. split; [|done].
    unfold list_problems. rewrite guarded_run, Hgh. cbn zeta. rewrite Hw.
    rewrite Hst. unfold json. rewrite Hbody. cbn [mbind result_bind get].
    rewrite Hres. cbn [default from_option id iter mbind result_bind].
    rewrite Heq. cbn [mbind result_bind mret result_ret fst].
    unfold found_envelope. by rewrite !length_fmap.
  - intros params rec rest Hw Hres.
    destruct (normalize_problem_normalized rec) as (out & Hout & Hn).
    exists out. split; [|done].
    unfold get_problem_by_number. rewrite guarded_run, Hgh. cbn zeta.
    rewrite Hw, Hst. unfold json. rewrite Hbody.
    cbn [mbind result_bind get]. rewrite Hres.
    cbn [default from_option id truthy length Nat.eqb negb index0
         mbind result_bind].
    by rewrite Hout.
Qed.

(** The test [test_list_problems_success]: one problem comes back, under
    its number, with [assigned_to] as a plain string. *)
Example list_problems_test :
  ∃ out,
    fst (run (list_problems test_config test_auth test_list_params)
           (responding (json_response 200
              (PDict (result_body [PDict test_record])))))
    = inr (found_envelope [PDict out])
    ∧ out !! "number" = Some (PStr "PRB0010001")
    ∧ out !! "assigned_to" = Some (PStr "Jane Admin").
Proof. eexists. split; [vm_compute; reflexivity|]. by vm_compute. Qed.

(** C1 at the record of the tests. *)
Lemma normalized_records_witness :
  (∃ outs,
     fst (run (list_problems test_config test_auth test_list_params)
            (responding (json_response 200
               (PDict (result_body [PDict test_record])))))
     = inr (found_envelope (PDict <$> outs))
     ∧ Forall2 normalized [test_record] outs)
  ∧ (∃ out,
     fst (run (get_problem_by_number test_config test_auth
                 (number_params "PRB0010001"))
            (responding (json_response 200
               (PDict (result_body [PDict test_record])))))
     = inr (problem_envelope "PRB0010001" (PDict out))
     ∧ normalized test_record out).
Proof.
  pose proof (normalized_records test_config test_auth
    (responding (json_response 200 (PDict (result_body [PDict test_record]))))
    test_headers
    (json_response 200 (PDict (result_body [PDict test_record])))
    (result_body [PDict test_record])
    eq_refl eq_refl eq_refl) as [Hlist Hget].
  split.
  - exact (Hlist test_list_params [test_record] eq_refl eq_refl).
  - exact (Hget (number_params "PRB0010001") test_record [] eq_refl eq_refl).
Defined.

(** C1 as worded fails: a [state] that arrives as a structured object is
    passed through as that object, by the normalizer and so by
    [list_problems]; it is not collapsed to its display value. *)
Lemma structured_state_kept :
  ∃ out,
    normalize_problem (PDict structured_state_record) = inr (PDict out)
    ∧ fst (run (list_problems test_config test_auth test_list_params)
             (responding (json_response 200
                (PDict (result_body [PDict structured_state_record])))))
      = inr (found_envelope [PDict out])
    ∧ out !! "state" = Some (PDict (dict [("display_value", PStr "New")]))
    ∧ display (structured_state_record !! raw_name "state") = PStr "New"
    ∧ ¬ collapsed_everywhere structured_state_record out.
Proof.
  eexists. split; [vm_compute; reflexivity|].
  split; [vm_compute; reflexivity|].
  split; [vm_compute; reflexivity|].
  split; [vm_compute; reflexivity|].
  intros H. specialize (H "state"). 
  assert (Hin : "state" ∈ problem_keys) by (unfold problem_keys; set_solver).
  apply H in Hin. vm_compute in Hin. discriminate Hin.
Qed.

(** ** Lookup by number *)

(** C2: when the API answers [get_problem_by_number] successfully with an
    empty [result] array, the envelope is [success = False] with the message
    [Problem not found: <number>]; when the array is not empty, the envelope
    is [success = True] with the first record normalized to the detail
    view.  In both cases the one request has been sent and nothing is
    logged. *)
Theorem problem_lookup (config : ServerConfig) (auth : AuthManager)
    (params : GetProblemByNumberParams.t) (w : World)
    (h : gmap string string) (resp : Response) (data : gmap string pyval) :
  get_headers auth = inr h →
  w (table_request config h (get_query_params params)) = Responds resp →
  success_status resp = true →
  body resp = inr (PDict data) →
  (data !! "result" = Some (PList []) →
   run (get_problem_by_number config auth params) w
   = (inr (PDict (dict [
        ("success", PBool false);
        ("message",
         PStr ("Problem not found: "
               +:+ GetProblemByNumberParams.problem_number params))])),
      [HttpGet (table_request config h (get_query_params params))]))
  ∧ (∀ rec rest,
     data !! "result" = Some (PList (PDict rec :: rest)) →
     ∃ out,
       normalize_problem (PDict rec) = inr (PDict out)
       ∧ normalized rec out
       ∧ run (get_problem_by_number config auth params) w
         = (inr (PDict (dict [
              ("success", PBool true);
              ("message",
               PStr ("Problem "
                     +:+ GetProblemByNumberParams.problem_number params
                     +:+ " found"));
              ("problem", PDict out)])),
            [HttpGet (table_request config h (get_query_params params))])).
Proof.
  intros Hgh Hw Hst%success_status_no_error Hbody.
  unfold get_problem_by_number. rewrite guarded_run, Hgh. cbn zeta.
  rewrite Hw, Hst. unfold json. rewrite Hbody. cbn [mbind result_bind get].
  split.
  - by intros ->.
  - intros rec rest ->.
    destruct (normalize_problem_normalized rec) as (out & Hout & Hn).
    exists out. split; [done|]. split; [done|].
    cbn [default from_option id truthy length Nat.eqb negb index0
         mbind result_bind].
    by rewrite Hout.
Qed.

(** C2 at the two lookups of the tests: [PRB0099999] is not found,
    [PRB0010001] is. *)
Lemma problem_lookup_witness :
  run (get_problem_by_number test_config test_auth
         (number_params "PRB0099999"))
    (responding (json_response 200 (PDict (result_body []))))
  = (inr (PDict (dict [
       ("success", PBool false);
       ("message", PStr "Problem not found: PRB0099999")])),
     [HttpGet (table_request test_config test_headers
                 (get_query_params (number_params "PRB0099999")))])
  ∧ ∃ out,
      normalize_problem (PDict test_record) = inr (PDict out)
      ∧ normalized test_record out
      ∧ run (get_problem_by_number test_config test_auth
               (number_params "PRB0010001"))
          (responding (json_response 200
             (PDict (result_body [PDict test_record]))))
        = (inr (PDict (dict [
             ("success", PBool true);
             ("message", PStr "Problem PRB0010001 found");
             ("problem", PDict out)])),
           [HttpGet (table_request test_config test_headers
                       (get_query_params (number_params "PRB0010001")))]).
Proof.
  split.
  - exact (proj1 (problem_lookup test_config test_auth
      (number_params "PRB0099999")
      (responding (json_response 200 (PDict (result_body []))))
      test_headers (json_response 200 (PDict (result_body [])))
      (result_body []) eq_refl eq_refl eq_refl eq_refl) eq_refl).
  - exact (proj2 (problem_lookup test_config test_auth
      (number_params "PRB0010001")
      (responding (json_response 200
         (PDict (result_body [PDict test_record]))))
      test_headers
      (json_response 200 (PDict (result_body [PDict test_record])))
      (result_body [PDict test_record]) eq_refl eq_refl eq_refl eq_refl)
      test_record [] eq_refl).
Defined.

(** A [result] that is absent, [null] or any other falsy value is "not
    found" as well. *)
Lemma problem_lookup_falsy (config : ServerConfig) (auth : AuthManager)
    (params : GetProblemByNumberParams.t) (w : World)
    (h : gmap string string) (resp : Response) (data : gmap string pyval) :
  get_headers auth = inr h →
  w (table_request config h (get_query_params params)) = Responds resp →
  success_status resp = true →
  body resp = inr (PDict data) →
  truthy (default (PList []) (data !! "result")) = false →
  fst (run (get_problem_by_number config auth params) w)
  = inr (PDict (dict [
      ("success", PBool false);
      ("message",
       PStr ("Problem not found: "
             +:+ GetProblemByNumberParams.problem_number params))])).
Proof.
  intros Hgh Hw Hst%success_status_no_error Hbody Hf.
  unfold get_problem_by_number. rewrite guarded_run, Hgh. cbn zeta.
  rewrite Hw, Hst. unfold json. rewrite Hbody. cbn [mbind result_bind get].
  by rewrite Hf.
Qed.

(** ** Keyword search *)

Lemma search_or_parts_flat_map (keywords : list string) :
  search_or_parts keywords
  = flat_map like_clauses (List.filter nonempty keywords).
Proof.
  induction keywords as [|kw rest IH]; [done|].
  cbn [search_or_parts List.filter truthy]. unfold nonempty at 1.
  destruct (negb (String.eqb kw "")); cbn [negb flat_map like_clauses app];
    by rewrite IH.
Qed.

Lemma search_or_parts_length (keywords : list string) :
  length (search_or_parts keywords)
  = (2 * length (List.filter nonempty keywords))%nat.
Proof.
  rewrite search_or_parts_flat_map.
  induction (List.filter nonempty keywords) as [|kw rest IH]; [done|].
  cbn [flat_map like_clauses app length]. rewrite IH. lia.
Qed.

Lemma and_separators_other (a : ascii) (s : string) :
  Ascii.eqb a "^" = false →
  and_separators (String a s) = and_separators s.
Proof.
  destruct a as [[] [] [] [] [] [] [] []]; intros H;
    first [discriminate H | reflexivity].
Qed.

Lemma and_separators_app (s t : string) :
  has_char "^" s = false →
  and_separators (s +:+ t) = and_separators t.
Proof.
  induction s as [|a s IH]; [done|].
  cbn [has_char]. intros [Ha Hs]%orb_false_elim.
  change (String a s +:+ t) with (String a (s +:+ t)).
  rewrite and_separators_other by done. by apply IH.
Qed.

Lemma and_separators_clean (s : string) :
  has_char "^" s = false → and_separators s = 0%nat.
Proof.
  induction s as [|a s IH]; [done|].
  cbn [has_char]. intros [Ha Hs]%orb_false_elim.
  rewrite and_separators_other by done. by apply IH.
Qed.

Lemma and_separators_or_chain (parts : list string) :
  Forall (λ p, has_char "^" p = false) parts →
  and_separators (String.concat "^OR" parts) = 0%nat.
Proof.
  induction 1 as [|p parts Hp Hall IH]; [done|].
  destruct parts as [|q parts].
  - by apply and_separators_clean.
  - change (String.concat "^OR" (p :: q :: parts))
      with (p +:+ "^OR" +:+ String.concat "^OR" (q :: parts)).
    rewrite and_separators_app by done. exact IH.
Qed.

Lemma search_or_parts_clean (keywords : list string) :
  Forall (λ kw, has_char "^" kw = false) keywords →
  Forall (λ p, has_char "^" p = false) (search_or_parts keywords).
Proof.
  induction 1 as [|kw rest Hkw Hall IH]; [constructor|].
  cbn [search_or_parts]. destruct (negb (truthy (PStr kw))); [done|].
  by repeat constructor.
Qed.

(** C3, as the code has it: the clause list of [search_problems] has
    exactly the two LIKE clauses (on [short_description], then on
    [description]) of every keyword that is not the empty string, in order,
    so [2*K] minus two per empty keyword; a keyword of white space only is
    not skipped.  When a clause is left, the request carries them joined by
    [^OR] as its [sysparm_query], and as long as no keyword has a caret of
    its own that query has no AND separator. *)
Theorem keyword_or_chain (config : ServerConfig) (auth : AuthManager)
    (params : SearchProblemsParams.t) (w : World) :
  let keywords := SearchProblemsParams.keywords params in
  let kept := List.filter nonempty keywords in
  search_or_parts keywords = flat_map like_clauses kept
  ∧ length (search_or_parts keywords)
    = (2 * length keywords
       - 2 * length (List.filter (λ kw, negb (nonempty kw)) keywords))%nat
  ∧ (∀ h, get_headers auth = inr h → kept ≠ [] →
     ∃ r, http_requests (snd (run (search_problems config auth params) w))
          = [r]
          ∧ req_params r !! "sysparm_query"
            = Some (PStr (String.concat "^OR" (flat_map like_clauses kept))))
  ∧ (Forall (λ kw, has_char "^" kw = false) keywords →
     and_separators (String.concat "^OR" (search_or_parts keywords)) = 0%nat).
Proof.
  intros keywords kept. split; [apply search_or_parts_flat_map|].
  split; [|split].
  - rewrite search_or_parts_length.
    pose proof (filter_length nonempty keywords) as Hlen.
    fold kept in Hlen |- *. lia.
  - intros h Hgh Hkept. rewrite search_problems_requests, Hgh.
    fold keywords. rewrite search_or_parts_flat_map. fold kept.
    destruct kept as [|kw kept']; [done|].
    cbn [flat_map like_clauses app]. eexists. split; [reflexivity|].
    reflexivity.
  - intros Hclean. by apply and_separators_or_chain, search_or_parts_clean.
Qed.

(** C3 at the keywords of the spec's scenario, with an empty one added:
    four clauses, one request, no AND separator. *)
Lemma keyword_or_chain_witness :
  search_or_parts ["Windows"; ""; "update"]
  = ["short_descriptionLIKEWindows"; "descriptionLIKEWindows";
     "short_descriptionLIKEupdate"; "descriptionLIKEupdate"]
  ∧ (∃ r,
       http_requests (snd (run (search_problems test_config test_auth
                                  (keyword_params ["Windows"; ""; "update"]))
                             unreachable))
       = [r]
       ∧ req_params r !! "sysparm_query"
         = Some (PStr
             "short_descriptionLIKEWindows^ORdescriptionLIKEWindows^ORshort_descriptionLIKEupdate^ORdescriptionLIKEupdate"))
  ∧ and_separators (String.concat "^OR"
      (search_or_parts ["Windows"; ""; "update"])) = 0%nat.
Proof.
  pose proof (keyword_or_chain test_config test_auth
    (keyword_params ["Windows"; ""; "update"]) unreachable)
    as (Hparts & _ & Hreq & Hand).
  split; [exact Hparts|]. split.
  - apply (Hreq test_headers eq_refl). discriminate.
  - apply Hand. by repeat constructor.
Defined.

(** C3 as worded fails: a keyword of white space only is blank, yet it is
    kept and gives its two clauses, so the clauses are not two per
    non-blank keyword. *)
Lemma blank_keyword_kept :
  blank " " = true
  ∧ search_or_parts ["Windows"; " "]
    = ["short_descriptionLIKEWindows"; "descriptionLIKEWindows";
       "short_descriptionLIKE "; "descriptionLIKE "]
  ∧ length (search_or_parts ["Windows"; " "])
    ≠ (2 * length (List.filter (λ kw, negb (blank kw)) ["Windows"; " "]))%nat.
Proof.
  split; [reflexivity|]. split; [reflexivity|].
  intros H. vm_compute in H. discriminate H.
Qed.

Lemma search_or_parts_empty (keywords : list string) :
  Forall (λ kw, kw = "") keywords → search_or_parts keywords = [].
Proof. induction 1 as [|kw rest -> _ IH]; [done|]. exact IH. Qed.

(** C5, as the code has it: for every keyword list whose entries are all
    the empty string (the empty list among them), [search_problems]
    answers [success = True] with an empty [problems] list and a message
    that says why, and neither sends a request nor logs. *)
Theorem no_keywords_no_request (config : ServerConfig) (auth : AuthManager)
    (params : SearchProblemsParams.t) (w : World) :
  Forall (λ kw, kw = "") (SearchProblemsParams.keywords params) →
  run (search_problems config auth params) w
  = (inr (PDict (dict [
       ("success", PBool true);
       ("message",
        PStr (match SearchProblemsParams.keywords params with
              | [] => "No keywords provided"
              | _ :: _ => "No valid keywords"
              end));
       ("problems", PList [])])),
     []).
Proof.
  intros Hall. unfold search_problems.
  rewrite (search_or_parts_empty _ Hall).
  by destruct (SearchProblemsParams.keywords params).
Qed.

(** C5 at the empty list and at a list of empty strings. *)
Lemma no_keywords_no_request_witness :
  run (search_problems test_config test_auth (keyword_params [])) unreachable
  = (inr (PDict (dict [
       ("success", PBool true);
       ("message", PStr "No keywords provided");
       ("problems", PList [])])), [])
  ∧ run (search_problems test_config test_auth (keyword_params [""; ""]))
      unreachable
    = (inr (PDict (dict [
         ("success", PBool true);
         ("message", PStr "No valid keywords");
         ("problems", PList [])])), []).
Proof.
  split.
  - apply (no_keywords_no_request test_config test_auth (keyword_params [])).
    constructor.
  - apply (no_keywords_no_request test_config test_auth
             (keyword_params [""; ""])).
    by repeat constructor.
Defined.

(** C5 as worded fails: the list [[" "]] is blank after trimming, and
    [search_problems] sends a request for it, with a query on the white
    space. *)
Lemma blank_keyword_requested :
  forallb blank [" "] = true
  ∧ ∃ r,
      http_requests (snd (run (search_problems test_config test_auth
                                 (keyword_params [" "]))
                            (responding (json_response 200
                               (PDict (result_body []))))))
      = [r]
      ∧ req_params r !! "sysparm_query"
        = Some (PStr "short_descriptionLIKE ^ORdescriptionLIKE ").
Proof.
  split; [done|]. rewrite search_problems_requests.
  eexists. split; reflexivity.
Qed.

(** ** Failures *)

(** Two responses without an error status and with the same JSON body
    give the same run: one request, then the work on the body, nothing
    logged. *)
Lemma guarded_same_body {A} (config : ServerConfig)
    (gh : result (gmap string string)) (qp : gmap string pyval)
    (rest : pyval → result A) (prefix : string) (envelope : exn → A)
    (w w' : World) (h : gmap string string) (resp ok : Response)
    (v : pyval) :
  gh = inr h →
  (∀ e, rest v = inl e → is_RequestException e = false) →
  body resp = inr v → body ok = inr v →
  w (table_request config h qp) = Responds resp →
  w' (table_request config h qp) = Responds ok →
  error_status resp = false → error_status ok = false →
  run (try_except
         (headers ← lift gh;
          response ← requests_get (api_url config +:+ "/table/problem") qp
                       headers (timeout config);
          lift (raise_for_status response;;
                data ← json response;
                rest data))
         is_RequestException
         (λ e, logger_error (prefix +:+ exn_str e);; mret (envelope e))) w
  = run (try_except
         (headers ← lift gh;
          response ← requests_get (api_url config +:+ "/table/problem") qp
                       headers (timeout config);
          lift (raise_for_status response;;
                data ← json response;
                rest data))
         is_RequestException
         (λ e, logger_error (prefix +:+ exn_str e);; mret (envelope e))) w'.
Proof.
  intros Hgh Hrest Hb Hbok Hw Hw' Hst Hok.
  rewrite (guarded_body config gh qp rest prefix envelope w h resp v)
    by done.
  by rewrite (guarded_body config gh qp rest prefix envelope w' h ok v)
    by done.
Qed.

Section SameBody.

Variables (config : ServerConfig) (auth : AuthManager) (w w' : World)
  (h : gmap string string) (resp ok : Response) (v : pyval).
Hypothesis headers : get_headers auth = inr h.
Hypothesis json_body : body resp = inr v.

Lemma list_problems_requests_sent (params : ListProblemsParams.t) :
  error_status resp = false →
  w (table_request config h (list_query_params params)) = Responds resp →
  snd (run (list_problems config auth params) w)
  = [HttpGet (table_request config h (list_query_params params))].
Proof.
  intros Hst Hw. unfold list_problems.
  erewrite (guarded_body config _ _ _ _ _ w h resp v headers Hw Hst
              json_body); [done|].
  intros e He. by eapply records_raise, He; apply normalize_problem_raises.
Qed.

Lemma list_problems_body (params : ListProblemsParams.t) :
  error_status resp = false →
  w (table_request config h (list_query_params params)) = Responds resp →
  body ok = inr v →
  w' (table_request config h (list_query_params params)) = Responds ok →
  error_status ok = false →
  run (list_problems config auth params) w
  = run (list_problems config auth params) w'.
Proof.
  intros Hst Hw Hbok Hw' Hok. unfold list_problems.
  eapply (guarded_same_body config _ _ _ _ _ w w' h resp ok v headers);
    [|done..].
  intros e He. by eapply records_raise, He; apply normalize_problem_raises.
Qed.

Lemma get_problem_by_number_requests_sent
    (params : GetProblemByNumberParams.t) :
  error_status resp = false →
  w (table_request config h (get_query_params params)) = Responds resp →
  snd (run (get_problem_by_number config auth params) w)
  = [HttpGet (table_request config h (get_query_params params))].
Proof.
  intros Hst Hw. unfold get_problem_by_number.
  erewrite (guarded_body config _ _ _ _ _ w h resp v headers Hw Hst
              json_body); [done|].
  intros e He. by eapply first_record_raises, He.
Qed.

Lemma get_problem_by_number_body (params : GetProblemByNumberParams.t) :
  error_status resp = false →
  w (table_request config h (get_query_params params)) = Responds resp →
  body ok = inr v →
  w' (table_request config h (get_query_params params)) = Responds ok →
  error_status ok = false →
  run (get_problem_by_number config auth params) w
  = run (get_problem_by_number config auth params) w'.
Proof.
  intros Hst Hw Hbok Hw' Hok. unfold get_problem_by_number.
  eapply (guarded_same_body config _ _ _ _ _ w w' h resp ok v headers);
    [|done..].
  intros e He. by eapply first_record_raises, He.
Qed.

Lemma search_problems_requests_sent (params : SearchProblemsParams.t) :
  search_or_parts (SearchProblemsParams.keywords params) ≠ [] →
  error_status resp = false →
  w (table_request config h
       (search_query_params params
          (search_or_parts (SearchProblemsParams.keywords params))))
  = Responds resp →
  snd (run (search_problems config auth params) w)
  = [HttpGet (table_request config h
                (search_query_params params
                   (search_or_parts
                      (SearchProblemsParams.keywords params))))].
Proof.
  intros Hne Hst Hw. unfold search_problems.
  destruct (SearchProblemsParams.keywords params) as [|kw kws] eqn:Hk;
    [done|].
  cbn [truthy fmap list_fmap length Nat.eqb negb].
  destruct (search_or_parts (kw :: kws)) as [|c cs] eqn:Hp; [done|].
  cbn [truthy fmap list_fmap length Nat.eqb negb].
  erewrite (guarded_body config _ _ _ _ _ w h resp v headers Hw Hst
              json_body); [done|].
  intros e He. by eapply records_raise, He; apply normalize_compact_raises.
Qed.

Lemma search_problems_body (params : SearchProblemsParams.t) :
  error_status resp = false →
  w (table_request config h
       (search_query_params params
          (search_or_parts (SearchProblemsParams.keywords params))))
  = Responds resp →
  body ok = inr v →
  w' (table_request config h
        (search_query_params params
           (search_or_parts (SearchProblemsParams.keywords params))))
  = Responds ok →
  error_status ok = false →
  run (search_problems config auth params) w
  = run (search_problems config auth params) w'.
Proof.
  intros Hst Hw Hbok Hw' Hok. unfold search_problems.
  destruct (negb (truthy _)); [done|].
  destruct (negb (truthy _)); [done|].
  eapply (guarded_same_body config _ _ _ _ _ w w' h resp ok v headers);
    [|done..].
  intros e He. by eapply records_raise, He; apply normalize_compact_raises.
Qed.

End SameBody.

(** C4, as the code has it: in each operation, a transport failure (a
    [RequestException] raised by the call: connection error, timeout; a 4xx
    or 5xx status) and a body that is not JSON are caught inside the
    operation, logged, and turned into the envelope [success = False],
    [message = "Failed to <action>: <cause>"]; and no operation ever lets a
    [RequestException] through to its caller.  A response with any other
    status (1xx, 3xx, 600 and above) is not a failure: when its body is
    JSON, nothing is logged, and the run is the one that a 2xx response
    with the same body gives. *)
Theorem transport_failures_enveloped (config : ServerConfig)
    (auth : AuthManager) (w : World) (h : gmap string string) :
  get_headers auth = inr h →
  (∀ params cause,
     transport_failure
       (w (table_request config h (list_query_params params))) cause →
     run (list_problems config auth params) w
     = (inr (failed_list_envelope "list problems" cause),
        [HttpGet (table_request config h (list_query_params params));
         LogError ("Failed to list problems: " +:+ cause)]))
  ∧ (∀ params cause,
     transport_failure
       (w (table_request config h (get_query_params params))) cause →
     run (get_problem_by_number config auth params) w
     = (inr (failed_lookup_envelope "fetch problem" cause),
        [HttpGet (table_request config h (get_query_params params));
         LogError ("Failed to fetch problem: " +:+ cause)]))
  ∧ (∀ params cause,
     let or_parts :=
       search_or_parts (SearchProblemsParams.keywords params) in
     or_parts ≠ [] →
     transport_failure
       (w (table_request config h (search_query_params params or_parts)))
       cause →
     run (search_problems config auth params) w
     = (inr (failed_list_envelope "search problems" cause),
        [HttpGet (table_request config h
                    (search_query_params params or_parts));
         LogError ("Failed to search problems: " +:+ cause)]))
  ∧ (∀ auth' w' e,
     (∀ params,
        fst (run (list_problems config auth' params) w') = inl e →
        is_RequestException e = false)
     ∧ (∀ params,
        fst (run (get_problem_by_number config auth' params) w') = inl e →
        is_RequestException e = false)
     ∧ (∀ params,
        fst (run (search_problems config auth' params) w') = inl e →
        is_RequestException e = false))
  ∧ (∀ resp v,
     error_status resp = false →
     body resp = inr v →
     (∀ params,
        let r := table_request config h (list_query_params params) in
        w r = Responds resp →
        snd (run (list_problems config auth params) w) = [HttpGet r]
        ∧ ∀ w' ok,
            success_status ok = true → body ok = inr v →
            w' r = Responds ok →
            run (list_problems config auth params) w
            = run (list_problems config auth params) w')
     ∧ (∀ params,
        let r := table_request config h (get_query_params params) in
        w r = Responds resp →
        snd (run (get_problem_by_number config auth params) w) = [HttpGet r]
        ∧ ∀ w' ok,
            success_status ok = true → body ok = inr v →
            w' r = Responds ok →
            run (get_problem_by_number config auth params) w
            = run (get_problem_by_number config auth params) w')
     ∧ (∀ params,
        let or_parts :=
          search_or_parts (SearchProblemsParams.keywords params) in
        let r :=
          table_request config h (search_query_params params or_parts) in
        or_parts ≠ [] →
        w r = Responds resp →
        snd (run (search_problems config auth params) w) = [HttpGet r]
        ∧ ∀ w' ok,
            success_status ok = true → body ok = inr v →
            w' r = Responds ok →
            run (search_problems config auth params) w
            = run (search_problems config auth params) w')).
Proof.
  intros Hgh. split; [|split; [|split; [|split]]].
  - intros params cause Hf. unfold list_problems.
    epose proof (guarded_transport_failure (A:=pyval) config _ _ _ _ _
                   w h cause Hgh Hf) as (e & Hc & Hrun).
    rewrite Hrun. by rewrite <- Hc.
  - intros params cause Hf. unfold get_problem_by_number.
    epose proof (guarded_transport_failure (A:=pyval) config _ _ _ _ _
                   w h cause Hgh Hf) as (e & Hc & Hrun).
    rewrite Hrun. by rewrite <- Hc.
  - intros params cause or_parts Hne Hf.
    unfold search_problems. fold or_parts.
    destruct (SearchProblemsParams.keywords params) as [|kw kws] eqn:Hk.
    { by subst or_parts. }
    cbn [truthy fmap list_fmap length Nat.eqb negb].
    destruct or_parts as [|c cs] eqn:Hp; [done|].
    cbn [truthy fmap list_fmap length Nat.eqb negb].
    epose proof (guarded_transport_failure (A:=pyval) config _ _ _ _ _
                   w h cause Hgh Hf) as (e & Hc & Hrun).
    rewrite Hrun. by rewrite <- Hc.
  - intros auth' w' e. split; [|split]; intros params.
    + apply guarded_no_request_exception.
    + apply guarded_no_request_exception.
    + unfold search_problems.
      destruct (negb (truthy _)); [done|].
      destruct (negb (truthy _)); [done|].
      apply guarded_no_request_exception.
  - intros resp v Hst Hb. split; [|split].
    + intros params r Hw. subst r. split.
      * by apply (list_problems_requests_sent config auth w h resp v).
      * intros w' ok Hok Hbok Hw'.
        by apply (list_problems_body config auth w w' h resp ok v),
          success_not_error.
    + intros params r Hw. subst r. split.
      * by apply (get_problem_by_number_requests_sent config auth w h resp
                    v).
      * intros w' ok Hok Hbok Hw'.
        by apply (get_problem_by_number_body config auth w w' h resp ok v),
          success_not_error.
    + intros params or_parts r Hne Hw. subst r or_parts. split.
      * by apply (search_problems_requests_sent config auth w h resp v).
      * intros w' ok Hok Hbok Hw'.
        by apply (search_problems_body config auth w w' h resp ok v),
          success_not_error.
Qed.

(** C4 at three failed exchanges: a refused connection for
    [list_problems], a 503 for [get_problem_by_number], a 200 with a body
    that is not JSON for [search_problems]; and at a 300 with the record of
    the tests in its body, which [list_problems] works on as on a 200. *)
Lemma transport_failures_enveloped_witness :
  run (list_problems test_config test_auth test_list_params) unreachable
  = (inr (failed_list_envelope "list problems" "Connection refused"),
     [HttpGet (table_request test_config test_headers
                 (list_query_params test_list_params));
      LogError "Failed to list problems: Connection refused"])
  ∧ run (get_problem_by_number test_config test_auth
           (number_params "PRB0010001")) unavailable
    = (inr (failed_lookup_envelope "fetch problem"
              "503 Server Error: Service Unavailable for url: https://dev12345.service-now.com/api/now/table/problem"),
       [HttpGet (table_request test_config test_headers
                   (get_query_params (number_params "PRB0010001")));
        LogError "Failed to fetch problem: 503 Server Error: Service Unavailable for url: https://dev12345.service-now.com/api/now/table/problem"])
  ∧ run (search_problems test_config test_auth
           (keyword_params ["Windows"; "update"])) garbled
    = (inr (failed_list_envelope "search problems"
              "Expecting value: line 1 column 1 (char 0)"),
       [HttpGet (table_request test_config test_headers
                   (search_query_params (keyword_params ["Windows"; "update"])
                      (search_or_parts ["Windows"; "update"])));
        LogError "Failed to search problems: Expecting value: line 1 column 1 (char 0)"])
  ∧ snd (run (list_problems test_config test_auth test_list_params)
           (responding (multiple_choices
              (PDict (result_body [PDict test_record])))))
    = [HttpGet (table_request test_config test_headers
                  (list_query_params test_list_params))]
  ∧ run (list_problems test_config test_auth test_list_params)
      (responding (multiple_choices
         (PDict (result_body [PDict test_record]))))
    = run (list_problems test_config test_auth test_list_params)
        (responding (json_response 200
           (PDict (result_body [PDict test_record])))).
Proof.
  split; [|split; [|split]].
  - apply (proj1 (transport_failures_enveloped test_config test_auth
                    unreachable test_headers eq_refl) test_list_params).
    exact (failure_raised (Exn ConnectionError "Connection refused") eq_refl).
  - apply (proj1 (proj2 (transport_failures_enveloped test_config test_auth
                    unavailable test_headers eq_refl))
             (number_params "PRB0010001")).
    exact (failure_status unavailable_response
             (Exn HTTPError
                "503 Server Error: Service Unavailable for url: https://dev12345.service-now.com/api/now/table/problem")
             eq_refl eq_refl).
  - apply (proj1 (proj2 (proj2 (transport_failures_enveloped test_config
                    test_auth garbled test_headers eq_refl)))
             (keyword_params ["Windows"; "update"])).
    + discriminate.
    + exact (failure_body garbled_response
               "Expecting value: line 1 column 1 (char 0)" eq_refl eq_refl).
  - pose proof (proj1 (proj2 (proj2 (proj2 (proj2
        (transport_failures_enveloped test_config test_auth
           (responding (multiple_choices
              (PDict (result_body [PDict test_record]))))
           test_headers eq_refl))))
        (multiple_choices (PDict (result_body [PDict test_record])))
        (PDict (result_body [PDict test_record])) eq_refl eq_refl)
        test_list_params eq_refl) as [Htrace Hsame].
    split; [exact Htrace|].
    exact (Hsame (responding (json_response 200
                    (PDict (result_body [PDict test_record]))))
             (json_response 200 (PDict (result_body [PDict test_record])))
             eq_refl eq_refl eq_refl).
Defined.

(** C4 as worded fails for a status that is neither 2xx nor an error
    status: on a 300 with a JSON body [list_problems] answers
    [success = True]. *)
Lemma redirect_status_not_caught :
  success_status (multiple_choices (PDict (result_body []))) = false
  ∧ run (list_problems test_config test_auth test_list_params)
      (responding (multiple_choices (PDict (result_body []))))
    = (inr (found_envelope []),
       [HttpGet (table_request test_config test_headers
                   (list_query_params test_list_params))]).
Proof. split; [reflexivity|]. vm_compute. reflexivity. Qed.

(** ** The query of a listing *)

Lemma truthy_opt_present (v : option string) :
  truthy_opt v = true → present v = [fmt v].
Proof.
  destruct v as [s|]; [|done]. cbn. by destruct (String.eqb s "").
Qed.

Lemma falsy_opt_absent (v : option string) :
  truthy_opt v = false → present v = [].
Proof.
  destruct v as [s|]; [|done]. cbn. by destruct (String.eqb s "").
Qed.

Lemma list_filters_clauses (params : ListProblemsParams.t) :
  list_filters params = equality_clauses params ++ text_clause params.
Proof.
  unfold list_filters, equality_clauses, text_clause.
  destruct (truthy_opt (ListProblemsParams.state params)) eqn:H1;
  destruct (truthy_opt (ListProblemsParams.assigned_to params)) eqn:H2;
  destruct (truthy_opt (ListProblemsParams.category params)) eqn:H3;
  destruct (truthy_opt (ListProblemsParams.query params)) eqn:H4;
  rewrite ?(truthy_opt_present _ H1), ?(falsy_opt_absent _ H1),
    ?(truthy_opt_present _ H2), ?(falsy_opt_absent _ H2),
    ?(truthy_opt_present _ H3), ?(falsy_opt_absent _ H3),
    ?(truthy_opt_present _ H4), ?(falsy_opt_absent _ H4);
  reflexivity.
Qed.

Lemma list_query_params_query (params : ListProblemsParams.t) :
  list_query_params params
  = match list_filters params with
    | [] => unfiltered_params (ListProblemsParams.limit params)
              (ListProblemsParams.offset params)
    | _ :: _ =>
        <["sysparm_query" := PStr (String.concat "^" (list_filters params))]>
          (unfiltered_params (ListProblemsParams.limit params)
             (ListProblemsParams.offset params))
    end.
Proof.
  unfold list_query_params. by destruct (list_filters params).
Qed.

(** C8: in every [list_problems] call the equality filters that are
    present (given and not empty: state, assigned_to, category, in that
    order) are rendered [field=value], a present free-text query is rendered
    [short_descriptionLIKE<q>^ORdescriptionLIKE<q>] and comes last, and the
    clauses are joined by [^] into the [sysparm_query] of the request; when
    neither a filter nor a query is present the request has no
    [sysparm_query] at all. *)
Theorem list_query_encoding (config : ServerConfig) (auth : AuthManager)
    (params : ListProblemsParams.t) (w : World) :
  let clauses := equality_clauses params ++ text_clause params in
  list_filters params = clauses
  ∧ list_query_params params !! "sysparm_query"
    = match clauses with
      | [] => None
      | _ :: _ => Some (PStr (String.concat "^" clauses))
      end
  ∧ (clauses = [] →
     list_query_params params
     = unfiltered_params (ListProblemsParams.limit params)
         (ListProblemsParams.offset params))
  ∧ (∀ h, get_headers auth = inr h →
     http_requests (snd (run (list_problems config auth params) w))
     = [table_request config h (list_query_params params)]).
Proof.
  intros clauses. pose proof (list_filters_clauses params) as Hf.
  fold clauses in Hf. split; [done|].
  rewrite list_query_params_query, Hf. split; [|split].
  - destruct clauses; [done|]. by rewrite lookup_insert_eq.
  - by intros ->.
  - intros h Hgh. rewrite list_problems_requests, Hgh.
    by rewrite list_query_params_query, Hf.
Qed.

(** C8 at a listing with two filters and a query, and at one with none. *)
Lemma list_query_encoding_witness :
  list_query_params filtered_params !! "sysparm_query"
  = Some (PStr
      "state=1^category=Software^short_descriptionLIKEemail^ORdescriptionLIKEemail")
  ∧ http_requests (snd (run (list_problems test_config test_auth
                               filtered_params) unreachable))
    = [table_request test_config test_headers
         (list_query_params filtered_params)]
  ∧ list_query_params empty_text_params = unfiltered_params 10 0.
Proof.
  split; [|split].
  - exact (proj1 (proj2 (list_query_encoding test_config test_auth
                           filtered_params unreachable))).
  - exact (proj2 (proj2 (proj2 (list_query_encoding test_config test_auth
                           filtered_params unreachable)))
             test_headers eq_refl).
  - exact (proj1 (proj2 (proj2 (list_query_encoding test_config test_auth
                           empty_text_params unreachable))) eq_refl).
Defined.

(** The query of the tests: [ListProblemsParams(limit=5, query="email")]. *)
Example list_query_test :
  list_query_params test_list_params !! "sysparm_query"
  = Some (PStr "short_descriptionLIKEemail^ORdescriptionLIKEemail")
  ∧ list_query_params test_list_params !! "sysparm_limit" = Some (PInt 5).
Proof. split; reflexivity. Qed.

Lemma drop_empty_present (v : option string) :
  present (drop_empty v) = present v.
Proof.
  destruct v as [s|]; [|done]. cbn.
  destruct (String.eqb s "") eqn:E; [done|]. cbn. by rewrite E.
Qed.

(** C10: in [list_problems] an empty string for state, assigned_to,
    category or query is treated as an absent value: it adds no clause,
    the query parameters and the whole run are those of the call without
    it, and empty strings for all four give the unfiltered listing. *)
Theorem empty_filters_ignored (config : ServerConfig) (auth : AuthManager)
    (params : ListProblemsParams.t) (w : World) :
  list_filters params = list_filters (without_empty params)
  ∧ list_query_params params = list_query_params (without_empty params)
  ∧ run (list_problems config auth params) w
    = run (list_problems config auth (without_empty params)) w
  ∧ ∀ limit offset,
      list_query_params
        {| ListProblemsParams.limit := limit;
           ListProblemsParams.offset := offset;
           ListProblemsParams.state := Some "";
           ListProblemsParams.assigned_to := Some "";
           ListProblemsParams.category := Some "";
           ListProblemsParams.query := Some "" |}
      = unfiltered_params limit offset
      ∧ unfiltered_params limit offset !! "sysparm_query" = None.
Proof.
  assert (Hf : list_filters params = list_filters (without_empty params)).
  { rewrite !list_filters_clauses.
    unfold equality_clauses, text_clause, without_empty. cbn.
    by rewrite !drop_empty_present. }
  assert (Hq : list_query_params params
               = list_query_params (without_empty params)).
  { by rewrite !list_query_params_query, <- Hf. }
  split; [done|]. split; [done|]. split.
  - unfold list_problems. by rewrite <- Hq.
  - intros limit offset. by split.
Qed.

(** ** Validation *)

Lemma call_list_problems_run config auth limit offset state assigned_to
    category query w :
  run (call_list_problems config auth limit offset state assigned_to
         category query) w
  = run (list_problems config auth
           {| ListProblemsParams.limit := default 10 limit;
              ListProblemsParams.offset := default 0 offset;
              ListProblemsParams.state := state;
              ListProblemsParams.assigned_to := assigned_to;
              ListProblemsParams.category := category;
              ListProblemsParams.query := query |}) w.
Proof. reflexivity. Qed.

Lemma call_search_problems_run config auth keywords limit offset w :
  run (call_search_problems config auth (Some keywords) limit offset) w
  = run (search_problems config auth
           {| SearchProblemsParams.keywords := keywords;
              SearchProblemsParams.limit := default 10 limit;
              SearchProblemsParams.offset := default 0 offset |}) w.
Proof. reflexivity. Qed.

Lemma call_get_problem_by_number_run config auth n w :
  run (call_get_problem_by_number config auth (Some n)) w
  = run (get_problem_by_number config auth (number_params n)) w.
Proof. reflexivity. Qed.

(** C6, as the code has it: no limit and no offset is rejected.  Every
    integer limit and offset, zero and negative ones too, passes the
    construction of the parameters unchanged, and [list_problems] and
    [search_problems] send it on as [sysparm_limit] and [sysparm_offset] of
    the one request they issue. *)
Theorem pagination_forwarded (config : ServerConfig) (auth : AuthManager)
    (w : World) (h : gmap string string) (limit offset : Z) :
  get_headers auth = inr h →
  (∀ state assigned_to category query,
     (∃ params,
        ListProblemsParams.make (Some limit) (Some offset) state assigned_to
          category query = inr params
        ∧ ListProblemsParams.limit params = limit
        ∧ ListProblemsParams.offset params = offset)
     ∧ ∃ r,
        http_requests (snd (run (call_list_problems config auth (Some limit)
                                   (Some offset) state assigned_to category
                                   query) w))
        = [r]
        ∧ req_params r !! "sysparm_limit" = Some (PInt limit)
        ∧ req_params r !! "sysparm_offset" = Some (PInt offset))
  ∧ (∀ keywords,
     (∃ params,
        SearchProblemsParams.make (Some keywords) (Some limit) (Some offset)
        = inr params
        ∧ SearchProblemsParams.limit params = limit
        ∧ SearchProblemsParams.offset params = offset)
     ∧ (search_or_parts keywords ≠ [] →
        ∃ r,
          http_requests (snd (run (call_search_problems config auth
                                     (Some keywords) (Some limit)
                                     (Some offset)) w))
          = [r]
          ∧ req_params r !! "sysparm_limit" = Some (PInt limit)
          ∧ req_params r !! "sysparm_offset" = Some (PInt offset))).
Proof.
  intros Hgh. split.
  - intros state assigned_to category query. split; [by eexists|].
    rewrite call_list_problems_run, list_problems_requests, Hgh.
    eexists. split; [reflexivity|]. cbn [req_params table_request].
    rewrite list_query_params_query. cbn [ListProblemsParams.limit
      ListProblemsParams.offset default from_option id].
    unfold unfiltered_params, dict. cbn [foldl fst snd].
    destruct (list_filters _); by simplify_map_eq.
  - intros keywords. split; [by eexists|]. intros Hne.
    rewrite call_search_problems_run, search_problems_requests, Hgh.
    cbn [SearchProblemsParams.keywords].
    destruct (search_or_parts keywords); [done|].
    eexists. split; [reflexivity|]. by split.
Qed.

(** C6 at limit 0 and offset -1. *)
Lemma pagination_forwarded_witness :
  (∃ r,
     http_requests (snd (run (call_list_problems test_config test_auth
                                (Some 0) (Some (-1)) None None None None)
                           unreachable))
     = [r]
     ∧ req_params r !! "sysparm_limit" = Some (PInt 0)
     ∧ req_params r !! "sysparm_offset" = Some (PInt (-1)))
  ∧ (∃ r,
     http_requests (snd (run (call_search_problems test_config test_auth
                                (Some ["Windows"]) (Some 0) (Some (-1)))
                           unreachable))
     = [r]
     ∧ req_params r !! "sysparm_limit" = Some (PInt 0)
     ∧ req_params r !! "sysparm_offset" = Some (PInt (-1))).
Proof.
  pose proof (pagination_forwarded test_config test_auth unreachable
                test_headers 0 (-1) eq_refl) as [Hlist Hsearch].
  split.
  - exact (proj2 (Hlist None None None None)).
  - apply (proj2 (Hsearch ["Windows"])). discriminate.
Defined.

(** C6 as worded fails: [limit=0] given to [list_problems] is not
    rejected; the parameters are built, the request goes out with
    [sysparm_limit=0], and the answer is an ordinary envelope. *)
Lemma zero_limit_requested :
  ∃ params r,
    ListProblemsParams.make (Some 0) None None None None None = inr params
    ∧ ListProblemsParams.limit params = 0
    ∧ run (call_list_problems test_config test_auth (Some 0) None None None
             None None)
        (responding (json_response 200 (PDict (result_body []))))
      = (inr (found_envelope []), [HttpGet r])
    ∧ req_params r !! "sysparm_limit" = Some (PInt 0).
Proof.
  do 2 eexists. split; [reflexivity|]. split; [reflexivity|].
  split; [vm_compute; reflexivity|]. reflexivity.
Qed.

(** C7, as the code has it: the problem number is required, and a call
    without it fails with a [ValidationError] before any network call; a
    number that is given is accepted as it is, empty or blank too, and is
    looked up with the query [number=<number>]. *)
Theorem number_required (config : ServerConfig) (auth : AuthManager)
    (w : World) :
  (∃ e, exn_cls e = ValidationError
     ∧ run (call_get_problem_by_number config auth None) w = (inl e, []))
  ∧ ∀ n h, get_headers auth = inr h →
      GetProblemByNumberParams.make (Some n) = inr (number_params n)
      ∧ ∃ r,
          http_requests (snd (run (call_get_problem_by_number config auth
                                     (Some n)) w))
          = [r]
          ∧ req_params r !! "sysparm_query" = Some (PStr ("number=" +:+ n)).
Proof.
  split.
  { eexists (Exn ValidationError _). split; reflexivity. }
  intros n h Hgh. split; [done|].
  rewrite call_get_problem_by_number_run, get_problem_by_number_requests, Hgh.
  eexists. split; [reflexivity|]. reflexivity.
Qed.

(** C7 at a missing number and at an ordinary one. *)
Lemma number_required_witness :
  (∃ e, exn_cls e = ValidationError
     ∧ run (call_get_problem_by_number test_config test_auth None)
         unreachable = (inl e, []))
  ∧ ∃ r,
      http_requests (snd (run (call_get_problem_by_number test_config
                                 test_auth (Some "PRB0010001")) unreachable))
      = [r]
      ∧ req_params r !! "sysparm_query" = Some (PStr "number=PRB0010001").
Proof.
  pose proof (number_required test_config test_auth unreachable)
    as [Hnone Hsome].
  split; [exact Hnone|].
  exact (proj2 (Hsome "PRB0010001" test_headers eq_refl)).
Defined.

(** C7 as worded fails: a blank number (empty, or white space only) is not
    reported as a validation failure; the lookup goes out to the network
    with it. *)
Lemma blank_number_requested :
  blank "" = true ∧ blank "  " = true
  ∧ (∃ r,
       run (call_get_problem_by_number test_config test_auth (Some ""))
         (responding (json_response 200 (PDict (result_body []))))
       = (inr (PDict (dict [
            ("success", PBool false);
            ("message", PStr "Problem not found: ")])),
          [HttpGet r])
       ∧ req_params r !! "sysparm_query" = Some (PStr "number="))
  ∧ (∃ r,
       run (call_get_problem_by_number test_config test_auth (Some "  "))
         (responding (json_response 200 (PDict (result_body []))))
       = (inr (PDict (dict [
            ("success", PBool false);
            ("message", PStr "Problem not found:   ")])),
          [HttpGet r])
       ∧ req_params r !! "sysparm_query" = Some (PStr "number=  ")).
Proof.
  split; [reflexivity|]. split; [reflexivity|]. split.
  - eexists. split; [vm_compute; reflexivity|]. reflexivity.
  - eexists. split; [vm_compute; reflexivity|]. reflexivity.
Qed.

(** * Further properties of the operations *)

(** ** Search results *)

Lemma normalize_compact_eq (rec : gmap string pyval) :
  normalize_compact (PDict rec)
  = inr (PDict (dict [
      ("sys_id", passed (rec !! "sys_id"));
      ("number", passed (rec !! "number"));
      ("short_description", passed (rec !! "short_description"));
      ("state", passed (rec !! "state"));
      ("priority", passed (rec !! "priority"));
      ("created_on", passed (rec !! "sys_created_on"));
      ("updated_on", passed (rec !! "sys_updated_on"))])).
Proof. reflexivity. Qed.

Lemma normalize_compact_compact (rec : gmap string pyval) :
  ∃ out, normalize_compact (PDict rec) = inr (PDict out) ∧ compact rec out.
Proof.
  rewrite normalize_compact_eq. eexists. split; [reflexivity|].
  unfold dict. cbn [foldl fst snd]. split.
  - rewrite !dom_insert_L, dom_empty_L. unfold compact_keys. set_solver.
  - intros k Hk. unfold compact_keys in Hk.
    repeat (apply elem_of_cons in Hk as [->|Hk]); try (by simplify_map_eq).
    by apply elem_of_nil in Hk.
Qed.

Lemma mapM_normalize_compact (recs : list (gmap string pyval)) :
  ∃ outs, mapM normalize_compact (PDict <$> recs) = inr (PDict <$> outs)
    ∧ Forall2 compact recs outs.
Proof.
  induction recs as [|rec recs (outs & Heq & Hall)].
  - by exists [].
  - destruct (normalize_compact_compact rec) as (out & Hout & Hn).
    exists (out :: outs). split; [|by constructor].
    change (mapM normalize_compact (PDict <$> rec :: recs))
      with (y ← normalize_compact (PDict rec);
            k ← mapM normalize_compact (PDict <$> recs);
            mret (y :: k)).
    by rewrite Hout, Heq.
Qed.

(** The [try] block of [search_problems], once a keyword is left. *)
Lemma search_problems_guarded config auth params w :
  search_or_parts (SearchProblemsParams.keywords params) ≠ [] →
  run (search_problems config auth params) w
  = run (try_except
      (headers ← lift (get_headers auth);
       response ← requests_get (api_url config +:+ "/table/problem")
                    (search_query_params params
                       (search_or_parts (SearchProblemsParams.keywords params)))
                    headers (timeout config);
       lift (
         raise_for_status response;;
         data ← json response;
         result ← get data "result" (PList []);
         recs ← iter result;
         problems ← mapM normalize_compact recs;
         mret (PDict (dict [
           ("success", PBool true);
           ("message", PStr ("Found " +:+ pretty (length problems)
                             +:+ " problems matching keywords"));
           ("problems", PList problems)]))))
      is_RequestException
      (λ e,
       logger_error ("Failed to search problems: " +:+ exn_str e);;
       mret (PDict (dict [
         ("success", PBool false);
         ("message", PStr ("Failed to search problems: " +:+ exn_str e));
         ("problems", PList [])])))) w.
Proof.
  intros Hne. unfold search_problems.
  destruct (SearchProblemsParams.keywords params) as [|kw kws] eqn:Hk;
    [done|].
  cbn [truthy fmap list_fmap length Nat.eqb negb].
  destruct (search_or_parts (kw :: kws)) as [|c cs] eqn:Hp; [done|].
  reflexivity.
Qed.

(** X1: on a successful response [search_problems] answers
    [success = True] with one compact record per record received, in the
    order received, and a message that counts them; a compact record has
    exactly the seven compact keys, each passed through from its raw field
    ([None] when the field is absent). *)
Theorem search_results (config : ServerConfig) (auth : AuthManager)
    (params : SearchProblemsParams.t) (w : World) (h : gmap string string)
    (resp : Response) (data : gmap string pyval)
    (recs : list (gmap string pyval)) :
  let or_parts := search_or_parts (SearchProblemsParams.keywords params) in
  get_headers auth = inr h →
  or_parts ≠ [] →
  w (table_request config h (search_query_params params or_parts))
  = Responds resp →
  success_status resp = true →
  body resp = inr (PDict data) →
  data !! "result" = Some (PList (PDict <$> recs)) →
  ∃ outs,
    run (search_problems config auth params) w
    = (inr (matching_envelope (PDict <$> outs)),
       [HttpGet (table_request config h
                   (search_query_params params or_parts))])
    ∧ length outs = length recs
    ∧ Forall2 compact recs outs.
Proof.
  intros or_parts Hgh Hne Hw Hst%success_status_no_error Hbody Hres.
  destruct (mapM_normalize_compact recs) as (outs & Heq & Hall).
  exists outs. split; [|split; [symmetry; by eapply Forall2_length|done]].
  rewrite search_problems_guarded by done. fold or_parts.
  rewrite guarded_run, Hgh. cbn zeta. rewrite Hw.
  rewrite Hst. unfold json. rewrite Hbody. cbn [mbind result_bind get].
  rewrite Hres. cbn [default from_option id iter mbind result_bind].
  by rewrite Heq.
Qed.

(** X1 at the search of the tests. *)
Lemma search_results_witness :
  ∃ outs,
    run (search_problems test_config test_auth
           (keyword_params ["Windows"; "update"]))
      (responding (json_response 200
         (PDict (result_body [PDict test_search_record]))))
    = (inr (matching_envelope (PDict <$> outs)),
       [HttpGet (table_request test_config test_headers
                   (search_query_params (keyword_params ["Windows"; "update"])
                      (search_or_parts ["Windows"; "update"])))])
    ∧ length outs = length [test_search_record]
    ∧ Forall2 compact [test_search_record] outs.
Proof.
  apply (search_results test_config test_auth
           (keyword_params ["Windows"; "update"])
           (responding (json_response 200
              (PDict (result_body [PDict test_search_record]))))
           test_headers
           (json_response 200 (PDict (result_body [PDict test_search_record])))
           (result_body [PDict test_search_record])
           [test_search_record]);
    [reflexivity|discriminate|reflexivity|reflexivity|reflexivity|reflexivity].
Defined.

(** X2: the fields that [search_problems] asks for in [sysparm_fields] are
    exactly the raw fields its compact records are read from, in the order
    of the compact keys; [list_problems] and [get_problem_by_number] send no
    [sysparm_fields] and so ask for every field. *)
Theorem requested_fields_are_read (params : SearchProblemsParams.t)
    (or_parts : list string) :
  search_query_params params or_parts !! "sysparm_fields"
  = Some (PStr (String.concat "," (raw_name <$> compact_keys)))
  ∧ (∀ rec, ∃ out,
       normalize_compact (PDict rec) = inr (PDict out) ∧ compact rec out)
  ∧ (∀ lp, list_query_params lp !! "sysparm_fields" = None)
  ∧ (∀ gp, get_query_params gp !! "sysparm_fields" = None).
Proof.
  split; [reflexivity|]. split; [apply normalize_compact_compact|].
  split.
  - intros lp. rewrite list_query_params_query.
    destruct (list_filters lp); [done|]. by rewrite lookup_insert_ne.
  - done.
Qed.

(** ** Every outcome of an operation *)

Section Outcomes.

Context {A : Type}.
Variables (config : ServerConfig) (gh : result (gmap string string))
  (qp : gmap string pyval) (post : Response → result A)
  (prefix : string) (envelope : exn → A).

Lemma caught_log (e : exn) (tr : list event) :
  log_messages tr = [] →
  (is_RequestException e = true
   ∧ caught prefix envelope e tr
     = (inr (envelope e), tr ++ [LogError (prefix +:+ exn_str e)])
   ∧ log_messages (tr ++ [LogError (prefix +:+ exn_str e)])
     = [prefix +:+ exn_str e])
  ∨ (is_RequestException e = false
     ∧ caught prefix envelope e tr = (inl e, tr)).
Proof.
  intros Htr. unfold caught. destruct (is_RequestException e); [left|right].
  - split; [done|]. split; [done|].
    unfold log_messages in *. rewrite omap_app, Htr. reflexivity.
  - done.
Qed.

(** The three ways a run can end: the [except] clause answered, an
    exception that is no [RequestException] went through, or the [try]
    block returned. *)
Lemma guarded_outcomes (w : World) (res : result A) (tr : list event) :
  run (try_except
         (headers ← lift gh;
          response ← requests_get (api_url config +:+ "/table/problem") qp
                       headers (timeout config);
          lift (post response))
         is_RequestException
         (λ e, logger_error (prefix +:+ exn_str e);; mret (envelope e))) w
  = (res, tr) →
  (∃ e, is_RequestException e = true ∧ res = inr (envelope e)
     ∧ log_messages tr = [prefix +:+ exn_str e])
  ∨ (∃ e, is_RequestException e = false ∧ res = inl e
     ∧ log_messages tr = [])
  ∨ (∃ h resp x, gh = inr h
     ∧ w (table_request config h qp) = Responds resp
     ∧ post resp = inr x ∧ res = inr x
     ∧ tr = [HttpGet (table_request config h qp)]).
Proof.
  rewrite guarded_run.
  assert (Hc : ∀ e tr0, log_messages tr0 = [] →
            caught prefix envelope e tr0 = (res, tr) →
            (∃ e, is_RequestException e = true ∧ res = inr (envelope e)
               ∧ log_messages tr = [prefix +:+ exn_str e])
            ∨ (∃ e, is_RequestException e = false ∧ res = inl e
               ∧ log_messages tr = [])
            ∨ (∃ h resp x, gh = inr h
               ∧ w (table_request config h qp) = Responds resp
               ∧ post resp = inr x ∧ res = inr x
               ∧ tr = [HttpGet (table_request config h qp)])).
  { intros e tr0 Htr0 Heq.
    destruct (caught_log e tr0 Htr0) as [(He & Hrun & Hlog)|(He & Hrun)];
      rewrite Hrun in Heq; injection Heq as <- <-.
    - left. by exists e.
    - right. left. by exists e. }
  destruct gh as [e|h] eqn:Hgh; [by apply Hc|].
  cbn zeta. destruct (w _) as [e|resp] eqn:Hw; [by apply Hc|].
  destruct (post resp) as [e|x] eqn:Hp; [by apply Hc|].
  intros [= <- <-]. right. right. by exists h, resp, x.
Qed.

End Outcomes.

Lemma normalize_problem_shape (x y : pyval) :
  normalize_problem x = inr y →
  ∃ rec out, x = PDict rec ∧ y = PDict out ∧ normalized rec out.
Proof.
  destruct x as [| | | | | |rec]; try discriminate.
  destruct (normalize_problem_normalized rec) as (out & Hout & Hn).
  rewrite Hout. intros [= <-]. by exists rec, out.
Qed.

Lemma normalize_compact_shape (x y : pyval) :
  normalize_compact x = inr y →
  ∃ rec out, x = PDict rec ∧ y = PDict out ∧ compact rec out.
Proof.
  destruct x as [| | | | | |rec]; try discriminate.
  destruct (normalize_compact_compact rec) as (out & Hout & Hn).
  rewrite Hout. intros [= <-]. by exists rec, out.
Qed.

(** A loop that came to its end turned every element into a record. *)
Lemma mapM_shape (f : pyval → result pyval) (P : pyval → pyval → Prop)
    (xs ys : list pyval) :
  (∀ x y, f x = inr y → P x y) →
  mapM f xs = inr ys → Forall2 P xs ys.
Proof.
  intros Hf. revert ys. induction xs as [|x xs IH]; intros ys.
  - intros [= <-]. constructor.
  - change (mapM f (x :: xs))
      with (y ← f x; k ← mapM f xs; mret (y :: k)).
    destruct (f x) as [e|y] eqn:Hy; [done|]. cbn [mbind result_bind].
    destruct (mapM f xs) as [e|k] eqn:Hk; [done|].
    intros [= <-]. constructor; [by apply Hf|by apply IH].
Qed.

(** ** Invariants of the runs *)

(** X3: a run of [list_problems], [get_problem_by_number] or
    [search_problems] makes at most one [requests.get] call of its own to
    the problem table, whatever the remote side answers and whatever
    [get_headers] returns or raises: the operations have no retry and no
    pagination loop.  What the authentication manager may send on its own
    inside [get_headers] is no part of the operations and is not counted. *)
Theorem at_most_one_request (config : ServerConfig) (auth : AuthManager)
    (w : World) :
  (∀ params,
     (length (http_requests
                (snd (run (list_problems config auth params) w))) ≤ 1)%nat)
  ∧ (∀ params,
     (length (http_requests
                (snd (run (get_problem_by_number config auth params) w)))
      ≤ 1)%nat)
  ∧ (∀ params,
     (length (http_requests
                (snd (run (search_problems config auth params) w)))
      ≤ 1)%nat).
Proof.
  split; [|split]; intros params.
  - rewrite list_problems_requests. destruct (get_headers auth); cbn; lia.
  - rewrite get_problem_by_number_requests.
    destruct (get_headers auth); cbn; lia.
  - rewrite search_problems_requests.
    destruct (get_headers auth); [cbn; lia|].
    destruct (search_or_parts _); cbn; lia.
Qed.

Lemma Forall2_right {X Y} (P : X → Y → Prop) (Q : Y → Prop)
    (xs : list X) (ys : list Y) :
  (∀ x y, P x y → Q y) → Forall2 P xs ys → Forall Q ys.
Proof. intros HPQ. induction 1; constructor; eauto. Qed.

Lemma list_post_shape (resp : Response) (x : pyval) :
  (raise_for_status resp;;
   data ← json resp;
   result ← get data "result" (PList []);
   recs ← iter result;
   problems ← mapM normalize_problem recs;
   mret (PDict (dict [
     ("success", PBool true);
     ("message", PStr ("Found " +:+ pretty (length problems)
                       +:+ " problems"));
     ("problems", PList problems)]))) = inr x →
  ∃ ps, x = found_envelope ps ∧ Forall full_record ps.
Proof.
  destruct (raise_for_status resp) as [e|[]]; [done|].
  cbn [mbind result_bind].
  destruct (json resp) as [e|data]; [done|]. cbn [mbind result_bind].
  destruct (get data "result" (PList [])) as [e|result]; [done|].
  cbn [mbind result_bind].
  destruct (iter result) as [e|recs]; [done|]. cbn [mbind result_bind].
  destruct (mapM normalize_problem recs) as [e|ps] eqn:Hm; [done|].
  cbn [mbind result_bind mret result_ret]. intros [= <-].
  exists ps. split; [done|].
  eapply Forall2_right; [|eapply (mapM_shape normalize_problem
    (λ x y, ∃ rec out, x = PDict rec ∧ y = PDict out ∧ normalized rec out));
    [apply normalize_problem_shape|exact Hm]].
  intros x y (rec & out & _ & -> & Hd & _). by exists out.
Qed.

Lemma search_post_shape (resp : Response) (x : pyval) :
  (raise_for_status resp;;
   data ← json resp;
   result ← get data "result" (PList []);
   recs ← iter result;
   problems ← mapM normalize_compact recs;
   mret (PDict (dict [
     ("success", PBool true);
     ("message", PStr ("Found " +:+ pretty (length problems)
                       +:+ " problems matching keywords"));
     ("problems", PList problems)]))) = inr x →
  ∃ ps, x = matching_envelope ps ∧ Forall full_compact ps.
Proof.
  destruct (raise_for_status resp) as [e|[]]; [done|].
  cbn [mbind result_bind].
  destruct (json resp) as [e|data]; [done|]. cbn [mbind result_bind].
  destruct (get data "result" (PList [])) as [e|result]; [done|].
  cbn [mbind result_bind].
  destruct (iter result) as [e|recs]; [done|]. cbn [mbind result_bind].
  destruct (mapM normalize_compact recs) as [e|ps] eqn:Hm; [done|].
  cbn [mbind result_bind mret result_ret]. intros [= <-].
  exists ps. split; [done|].
  eapply Forall2_right; [|eapply (mapM_shape normalize_compact
    (λ x y, ∃ rec out, x = PDict rec ∧ y = PDict out ∧ compact rec out));
    [apply normalize_compact_shape|exact Hm]].
  intros x y (rec & out & _ & -> & Hd & _). by exists out.
Qed.

(** X4: whenever [list_problems] returns, in any world, the envelope is
    one of two: [success = True] with a list of records that each have all
    eleven keys, and nothing logged; or [success = False] with an empty
    [problems] list and a message [Failed to list problems: <cause>] that
    is the one message logged.  So no failure envelope is left unlogged and
    no record of a success envelope lacks a key. *)
Theorem list_envelope_invariant (config : ServerConfig) (auth : AuthManager)
    (params : ListProblemsParams.t) (w : World) (res : pyval)
    (tr : list event) :
  run (list_problems config auth params) w = (inr res, tr) →
  (∃ ps, res = found_envelope ps ∧ Forall full_record ps
     ∧ log_messages tr = [])
  ∨ (∃ cause, res = failed_list_envelope "list problems" cause
     ∧ log_messages tr = ["Failed to list problems: " +:+ cause]).
Proof.
  unfold list_problems. intros H.
  apply guarded_outcomes in H
    as [(e & He & [= ->] & Hlog)|[(e & _ & [=] & _)
       |(h & resp & x & Hgh & Hw & Hp & [= ->] & ->)]].
  - right. by exists (exn_str e).
  - left. apply list_post_shape in Hp as (ps & -> & Hall). by exists ps.
Qed.

(** X5: the same for [search_problems], with compact records of seven
    keys; the two answers given without a request ("No keywords provided",
    "No valid keywords") come with an empty list and an empty trace. *)
Theorem search_envelope_invariant (config : ServerConfig)
    (auth : AuthManager) (params : SearchProblemsParams.t) (w : World)
    (res : pyval) (tr : list event) :
  run (search_problems config auth params) w = (inr res, tr) →
  (∃ ps, res = matching_envelope ps ∧ Forall full_compact ps
     ∧ log_messages tr = [])
  ∨ (∃ msg, res = PDict (dict [
              ("success", PBool true);
              ("message", PStr msg);
              ("problems", PList [])])
     ∧ tr = [])
  ∨ (∃ cause, res = failed_list_envelope "search problems" cause
     ∧ log_messages tr = ["Failed to search problems: " +:+ cause]).
Proof.
  unfold search_problems.
  destruct (negb (truthy _)).
  { intros [= <- <-]. right. left. by eexists. }
  destruct (negb (truthy _)).
  { intros [= <- <-]. right. left. by eexists. }
  intros H.
  apply guarded_outcomes in H
    as [(e & He & [= ->] & Hlog)|[(e & _ & [=] & _)
       |(h & resp & x & Hgh & Hw & Hp & [= ->] & ->)]].
  - right. right. by exists (exn_str e).
  - left. apply search_post_shape in Hp as (ps & -> & Hall). by exists ps.
Qed.

(** X6: whenever [get_problem_by_number] returns, in any world, the
    envelope is one of three: the problem found, with all eleven keys, under
    the key [problem]; "not found", without payload and without a log
    entry; or [Failed to fetch problem: <cause>], without payload, which is
    the one message logged.  The [problem] key is there exactly when
    [success] is [True]. *)
Theorem lookup_envelope_invariant (config : ServerConfig)
    (auth : AuthManager) (params : GetProblemByNumberParams.t) (w : World)
    (res : pyval) (tr : list event) :
  run (get_problem_by_number config auth params) w = (inr res, tr) →
  (∃ p, res = problem_envelope
                (GetProblemByNumberParams.problem_number params) p
     ∧ full_record p ∧ log_messages tr = [])
  ∨ (res = not_found_envelope
             (GetProblemByNumberParams.problem_number params)
     ∧ log_messages tr = [])
  ∨ (∃ cause, res = failed_lookup_envelope "fetch problem" cause
     ∧ log_messages tr = ["Failed to fetch problem: " +:+ cause]).
Proof.
  unfold get_problem_by_number. intros H.
  apply guarded_outcomes in H
    as [(e & He & [= ->] & Hlog)|[(e & _ & [=] & _)
       |(h & resp & x & Hgh & Hw & Hp & [= ->] & ->)]].
  - right. right. by exists (exn_str e).
  - revert Hp.
    destruct (raise_for_status resp) as [e|[]]; [done|].
    cbn [mbind result_bind].
    destruct (json resp) as [e|data]; [done|]. cbn [mbind result_bind].
    destruct (get data "result" (PList [])) as [e|result]; [done|].
    cbn [mbind result_bind].
    destruct (negb (truthy result)).
    { intros [= <-]. right. by left. }
    destruct (index0 result) as [e|rec]; [done|]. cbn [mbind result_bind].
    destruct (normalize_problem rec) as [e|p] eqn:Hn; [done|].
    cbn [mbind result_bind mret result_ret]. intros [= <-].
    left. exists p. split; [done|]. split; [|done].
    apply normalize_problem_shape in Hn as (r & out & _ & -> & Hd & _).
    by exists out.
Qed.

(** X4 at a refused connection. *)
Lemma list_envelope_invariant_witness :
  (∃ ps, failed_list_envelope "list problems" "Connection refused"
         = found_envelope ps
     ∧ Forall full_record ps
     ∧ log_messages
         [HttpGet (table_request test_config test_headers
                     (list_query_params test_list_params));
          LogError "Failed to list problems: Connection refused"] = [])
  ∨ (∃ cause,
       failed_list_envelope "list problems" "Connection refused"
       = failed_list_envelope "list problems" cause
       ∧ log_messages
           [HttpGet (table_request test_config test_headers
                       (list_query_params test_list_params));
            LogError "Failed to list problems: Connection refused"]
         = ["Failed to list problems: " +:+ cause]).
Proof.
  exact (list_envelope_invariant test_config test_auth test_list_params
           unreachable _ _ eq_refl).
Defined.

(** X5 at a search that is answered with one record. *)
Lemma search_envelope_invariant_witness :
  ∃ res tr,
    run (search_problems test_config test_auth
           (keyword_params ["Windows"; "update"]))
      (responding (json_response 200
         (PDict (result_body [PDict test_search_record]))))
    = (inr res, tr)
    ∧ ((∃ ps, res = matching_envelope ps ∧ Forall full_compact ps
          ∧ log_messages tr = [])
       ∨ (∃ msg, res = PDict (dict [
                   ("success", PBool true);
                   ("message", PStr msg);
                   ("problems", PList [])])
          ∧ tr = [])
       ∨ (∃ cause, res = failed_list_envelope "search problems" cause
          ∧ log_messages tr = ["Failed to search problems: " +:+ cause])).
Proof.
  eexists _, _. split; [vm_compute; reflexivity|].
  exact (search_envelope_invariant test_config test_auth
           (keyword_params ["Windows"; "update"])
           (responding (json_response 200
              (PDict (result_body [PDict test_search_record]))))
           _ _ eq_refl).
Defined.

(** X6 at the lookup of the tests that finds nothing. *)
Lemma lookup_envelope_invariant_witness :
  ∃ res tr,
    run (get_problem_by_number test_config test_auth
           (number_params "PRB0099999"))
      (responding (json_response 200 (PDict (result_body []))))
    = (inr res, tr)
    ∧ ((∃ p, res = problem_envelope "PRB0099999" p
          ∧ full_record p ∧ log_messages tr = [])
       ∨ (res = not_found_envelope "PRB0099999" ∧ log_messages tr = [])
       ∨ (∃ cause, res = failed_lookup_envelope "fetch problem" cause
          ∧ log_messages tr = ["Failed to fetch problem: " +:+ cause])).
Proof.
  eexists _, _. split; [vm_compute; reflexivity|].
  exact (lookup_envelope_invariant test_config test_auth
           (number_params "PRB0099999")
           (responding (json_response 200 (PDict (result_body []))))
           _ _ eq_refl).
Defined.

(** ** Errors outside the exchange *)

(** X7: the call [auth_manager.get_headers()] is made inside the [try]
    block.  When it raises a [RequestException] the operation answers with
    its failure envelope, logs it, and sends no request; when it raises
    anything else, the exception goes on to the caller, with nothing sent
    and nothing logged. *)
Theorem headers_failure (config : ServerConfig) (auth : AuthManager)
    (w : World) (e : exn) :
  get_headers auth = inl e →
  (is_RequestException e = true →
   (∀ params,
      run (list_problems config auth params) w
      = (inr (failed_list_envelope "list problems" (exn_str e)),
         [LogError ("Failed to list problems: " +:+ exn_str e)]))
   ∧ (∀ params,
      run (get_problem_by_number config auth params) w
      = (inr (failed_lookup_envelope "fetch problem" (exn_str e)),
         [LogError ("Failed to fetch problem: " +:+ exn_str e)]))
   ∧ (∀ params,
      search_or_parts (SearchProblemsParams.keywords params) ≠ [] →
      run (search_problems config auth params) w
      = (inr (failed_list_envelope "search problems" (exn_str e)),
         [LogError ("Failed to search problems: " +:+ exn_str e)])))
  ∧ (is_RequestException e = false →
     (∀ params, run (list_problems config auth params) w = (inl e, []))
     ∧ (∀ params,
        run (get_problem_by_number config auth params) w = (inl e, []))
     ∧ (∀ params,
        search_or_parts (SearchProblemsParams.keywords params) ≠ [] →
        run (search_problems config auth params) w = (inl e, []))).
Proof.
  intros Hgh. split; intros He; (split; [|split]); intros params.
  - unfold list_problems. rewrite guarded_run, Hgh.
    by rewrite caught_request_exception.
  - unfold get_problem_by_number. rewrite guarded_run, Hgh.
    by rewrite caught_request_exception.
  - intros Hne. rewrite search_problems_guarded by done.
    rewrite guarded_run, Hgh. by rewrite caught_request_exception.
  - unfold list_problems. rewrite guarded_run, Hgh. unfold caught.
    by rewrite He.
  - unfold get_problem_by_number. rewrite guarded_run, Hgh. unfold caught.
    by rewrite He.
  - intros Hne. rewrite search_problems_guarded by done.
    rewrite guarded_run, Hgh. unfold caught. by rewrite He.
Qed.

(** X7 at a token request that timed out, and at a configuration error. *)
Lemma headers_failure_witness :
  run (list_problems test_config
         (failing_auth (Exn Timeout "token request timed out"))
         test_list_params) unreachable
  = (inr (failed_list_envelope "list problems" "token request timed out"),
     [LogError "Failed to list problems: token request timed out"])
  ∧ run (get_problem_by_number test_config
           (failing_auth (Exn OtherError "Authentication not configured"))
           (number_params "PRB0010001")) unreachable
    = (inl (Exn OtherError "Authentication not configured"), []).
Proof.
  split.
  - exact (proj1 (proj1 (headers_failure test_config
             (failing_auth (Exn Timeout "token request timed out"))
             unreachable _ eq_refl) eq_refl) test_list_params).
  - exact (proj1 (proj2 (proj2 (headers_failure test_config
             (failing_auth (Exn OtherError "Authentication not configured"))
             unreachable _ eq_refl) eq_refl))
             (number_params "PRB0010001")).
Defined.

(** ** Bodies of an unexpected shape *)

(** X8: a body that is JSON but not an object (an array, a string, a
    number, [null]) makes all three operations raise [AttributeError] to
    the caller after the request: [.get] is called on it, and the [except]
    clause does not catch that class.  Nothing is logged. *)
Theorem non_object_body_raises (config : ServerConfig) (auth : AuthManager)
    (w : World) (h : gmap string string) (resp : Response) (v : pyval) :
  get_headers auth = inr h →
  error_status resp = false →
  body resp = inr v →
  is_dict v = false →
  let e := Exn AttributeError
             ("'" +:+ type_name v +:+ "' object has no attribute 'get'") in
  (∀ params,
     w (table_request config h (list_query_params params)) = Responds resp →
     run (list_problems config auth params) w
     = (inl e, [HttpGet (table_request config h (list_query_params params))]))
  ∧ (∀ params,
     w (table_request config h (get_query_params params)) = Responds resp →
     run (get_problem_by_number config auth params) w
     = (inl e, [HttpGet (table_request config h (get_query_params params))]))
  ∧ (∀ params,
     let or_parts :=
       search_or_parts (SearchProblemsParams.keywords params) in
     or_parts ≠ [] →
     w (table_request config h (search_query_params params or_parts))
     = Responds resp →
     run (search_problems config auth params) w
     = (inl e, [HttpGet (table_request config h
                           (search_query_params params or_parts))])).
Proof.
  intros Hgh Hst%no_error_status_passes Hbody Hv e.
  assert (Hget : get v "result" (PList []) = inl e).
  { by destruct v. }
  split; [|split].
  - intros params Hw. unfold list_problems.
    rewrite guarded_run, Hgh. cbn zeta. rewrite Hw, Hst.
    unfold json. rewrite Hbody. cbn [mbind result_bind]. by rewrite Hget.
  - intros params Hw. unfold get_problem_by_number.
    rewrite guarded_run, Hgh. cbn zeta. rewrite Hw, Hst.
    unfold json. rewrite Hbody. cbn [mbind result_bind]. by rewrite Hget.
  - intros params or_parts Hne Hw. rewrite search_problems_guarded by done.
    fold or_parts. rewrite guarded_run, Hgh. cbn zeta. rewrite Hw, Hst.
    unfold json. rewrite Hbody. cbn [mbind result_bind]. by rewrite Hget.
Qed.

(** X8 at a body that is an empty array. *)
Lemma non_object_body_raises_witness :
  run (list_problems test_config test_auth test_list_params)
    (responding (json_response 200 (PList [])))
  = (inl (Exn AttributeError "'list' object has no attribute 'get'"),
     [HttpGet (table_request test_config test_headers
                 (list_query_params test_list_params))]).
Proof.
  exact (proj1 (non_object_body_raises test_config test_auth
           (responding (json_response 200 (PList []))) test_headers
           (json_response 200 (PList [])) (PList [])
           eq_refl eq_refl eq_refl eq_refl) test_list_params eq_refl).
Defined.

(** X9: when [result] is [null], a boolean or a number, [list_problems]
    and [search_problems] raise [TypeError] (the value is not iterable),
    while [get_problem_by_number] answers "not found" when the value is
    falsy and raises [TypeError] (not subscriptable) when it is not. *)
Theorem scalar_result (config : ServerConfig) (auth : AuthManager)
    (w : World) (h : gmap string string) (resp : Response)
    (data : gmap string pyval) (v : pyval) :
  get_headers auth = inr h →
  error_status resp = false →
  body resp = inr (PDict data) →
  data !! "result" = Some v →
  scalar v = true →
  (∀ params,
     w (table_request config h (list_query_params params)) = Responds resp →
     run (list_problems config auth params) w
     = (inl (Exn TypeError
               ("'" +:+ type_name v +:+ "' object is not iterable")),
        [HttpGet (table_request config h (list_query_params params))]))
  ∧ (∀ params,
     let or_parts :=
       search_or_parts (SearchProblemsParams.keywords params) in
     or_parts ≠ [] →
     w (table_request config h (search_query_params params or_parts))
     = Responds resp →
     run (search_problems config auth params) w
     = (inl (Exn TypeError
               ("'" +:+ type_name v +:+ "' object is not iterable")),
        [HttpGet (table_request config h
                    (search_query_params params or_parts))]))
  ∧ (∀ params,
     w (table_request config h (get_query_params params)) = Responds resp →
     run (get_problem_by_number config auth params) w
     = (if truthy v
        then inl (Exn TypeError
                    ("'" +:+ type_name v
                     +:+ "' object is not subscriptable"))
        else inr (not_found_envelope
                    (GetProblemByNumberParams.problem_number params)),
        [HttpGet (table_request config h (get_query_params params))])).
Proof.
  intros Hgh Hst%no_error_status_passes Hbody Hres Hv.
  split; [|split].
  - intros params Hw. unfold list_problems.
    rewrite guarded_run, Hgh. cbn zeta. rewrite Hw, Hst.
    unfold json. rewrite Hbody. cbn [mbind result_bind get].
    rewrite Hres. cbn [default from_option id].
    by destruct v.
  - intros params or_parts Hne Hw. rewrite search_problems_guarded by done.
    fold or_parts. rewrite guarded_run, Hgh. cbn zeta. rewrite Hw, Hst.
    unfold json. rewrite Hbody. cbn [mbind result_bind get].
    rewrite Hres. cbn [default from_option id].
    by destruct v.
  - intros params Hw. unfold get_problem_by_number.
    rewrite guarded_run, Hgh. cbn zeta. rewrite Hw, Hst.
    unfold json. rewrite Hbody. cbn [mbind result_bind get].
    rewrite Hres. cbn [default from_option id].
    destruct v; try discriminate; cbn [truthy negb type_name];
      try reflexivity.
    + by destruct b.
    + by destruct (n =? 0).
    + by destruct (PrimFloat.eqb x 0).
Qed.

(** X9 at the body [{"result": null}]. *)
Lemma scalar_result_witness :
  run (list_problems test_config test_auth test_list_params)
    (responding (json_response 200 (PDict (dict [("result", PNone)]))))
  = (inl (Exn TypeError "'NoneType' object is not iterable"),
     [HttpGet (table_request test_config test_headers
                 (list_query_params test_list_params))])
  ∧ run (get_problem_by_number test_config test_auth
           (number_params "PRB0010001"))
      (responding (json_response 200 (PDict (dict [("result", PNone)]))))
    = (inr (not_found_envelope "PRB0010001"),
       [HttpGet (table_request test_config test_headers
                   (get_query_params (number_params "PRB0010001")))]).
Proof.
  pose proof (scalar_result test_config test_auth
    (responding (json_response 200 (PDict (dict [("result", PNone)]))))
    test_headers (json_response 200 (PDict (dict [("result", PNone)])))
    (dict [("result", PNone)]) PNone
    eq_refl eq_refl eq_refl eq_refl eq_refl) as (Hlist & _ & Hget).
  split.
  - exact (Hlist test_list_params eq_refl).
  - exact (Hget (number_params "PRB0010001") eq_refl).
Defined.

Lemma normalize_problem_not_dict (x : pyval) :
  is_dict x = false →
  normalize_problem x
  = inl (Exn AttributeError
           ("'" +:+ type_name x +:+ "' object has no attribute 'get'")).
Proof. by destruct x. Qed.

Lemma mapM_normalize_problem_stops (good : list (gmap string pyval))
    (x : pyval) (rest : list pyval) :
  is_dict x = false →
  mapM normalize_problem ((PDict <$> good) ++ x :: rest)
  = inl (Exn AttributeError
           ("'" +:+ type_name x +:+ "' object has no attribute 'get'")).
Proof.
  intros Hx. induction good as [|rec good IH].
  - change (mapM normalize_problem ((PDict <$> []) ++ x :: rest))
      with (y ← normalize_problem x;
            k ← mapM normalize_problem rest; mret (y :: k)).
    by rewrite normalize_problem_not_dict.
  - change (mapM normalize_problem ((PDict <$> rec :: good) ++ x :: rest))
      with (y ← normalize_problem (PDict rec);
            k ← mapM normalize_problem ((PDict <$> good) ++ x :: rest);
            mret (y :: k)).
    rewrite normalize_problem_eq. cbn [mbind result_bind]. by rewrite IH.
Qed.

(** X10: [list_problems] gives no partial result.  When one element of
    [result] is not an object, however many records before it were fine,
    the call raises [AttributeError] for that element and returns no
    envelope at all. *)
Theorem bad_record_raises (config : ServerConfig) (auth : AuthManager)
    (params : ListProblemsParams.t) (w : World) (h : gmap string string)
    (resp : Response) (data : gmap string pyval)
    (good : list (gmap string pyval)) (x : pyval) (rest : list pyval) :
  get_headers auth = inr h →
  w (table_request config h (list_query_params params)) = Responds resp →
  error_status resp = false →
  body resp = inr (PDict data) →
  data !! "result" = Some (PList ((PDict <$> good) ++ x :: rest)) →
  is_dict x = false →
  run (list_problems config auth params) w
  = (inl (Exn AttributeError
            ("'" +:+ type_name x +:+ "' object has no attribute 'get'")),
     [HttpGet (table_request config h (list_query_params params))]).
Proof.
  intros Hgh Hw Hst%no_error_status_passes Hbody Hres Hx.
  unfold list_problems. rewrite guarded_run, Hgh. cbn zeta.
  rewrite Hw, Hst. unfold json. rewrite Hbody. cbn [mbind result_bind get].
  rewrite Hres. cbn [default from_option id iter mbind result_bind].
  by rewrite mapM_normalize_problem_stops.
Qed.

(** X10 at a good record followed by a string. *)
Lemma bad_record_raises_witness :
  run (list_problems test_config test_auth test_list_params)
    (responding (json_response 200
       (PDict (result_body [PDict test_record; PStr "oops"]))))
  = (inl (Exn AttributeError "'str' object has no attribute 'get'"),
     [HttpGet (table_request test_config test_headers
                 (list_query_params test_list_params))]).
Proof.
  exact (bad_record_raises test_config test_auth test_list_params
           (responding (json_response 200
              (PDict (result_body [PDict test_record; PStr "oops"]))))
           test_headers
           (json_response 200
              (PDict (result_body [PDict test_record; PStr "oops"])))
           (result_body [PDict test_record; PStr "oops"])
           [test_record] (PStr "oops") []
           eq_refl eq_refl eq_refl eq_refl eq_refl eq_refl).
Defined.

(** ** Where the reported records come from *)

Lemma raise_for_status_passed (r : Response) :
  raise_for_status r = inr tt → error_status r = false.
Proof.
  intros H. destruct (error_status r) eqn:E; [|done].
  apply error_status_raises in E as (e & He). congruence.
Qed.

Lemma records_of_dicts (N : gmap string pyval → gmap string pyval → Prop)
    (xs ys : list pyval) :
  Forall2 (λ x y, ∃ rec out, x = PDict rec ∧ y = PDict out ∧ N rec out)
    xs ys →
  ∃ recs, xs = PDict <$> recs
    ∧ Forall2 (λ rec p, ∃ out, p = PDict out ∧ N rec out) recs ys.
Proof.
  induction 1 as [|x y xs ys (rec & out & -> & -> & Hn) _ (recs & -> & IH)].
  - by exists [].
  - exists (rec :: recs). split; [done|]. constructor; [by exists out|done].
Qed.

(** What the loop over [result] went through when it came to its end with
    at least one record: a JSON array of objects. *)
Lemma iterated_records (f : pyval → result pyval)
    (N : gmap string pyval → gmap string pyval → Prop)
    (result : pyval) (recs ps : list pyval) :
  (∀ x y, f x = inr y →
     ∃ rec out, x = PDict rec ∧ y = PDict out ∧ N rec out) →
  iter result = inr recs →
  mapM f recs = inr ps →
  ps ≠ [] →
  ∃ rs, result = PList (PDict <$> rs)
    ∧ Forall2 (λ rec p, ∃ out, p = PDict out ∧ N rec out) rs ps.
Proof.
  intros Hf Hiter Hm Hne.
  apply (mapM_shape f _ _ _ Hf) in Hm.
  destruct (records_of_dicts N _ _ Hm) as (rs & -> & Hall).
  exists rs. split; [|done].
  destruct rs as [|r rs]; [by inversion Hall; subst|].
  destruct result as [| | | |s|l|d]; try discriminate.
  - destruct s; discriminate.
  - by injection Hiter as ->.
  - cbn [iter] in Hiter. injection Hiter as Hiter.
    destruct ((map_to_list d).*1); discriminate.
Qed.

Lemma found_envelope_problems (ps : list pyval) :
  problems_of (found_envelope ps) = Some (PList ps).
Proof.
  unfold problems_of, found_envelope, dict. cbn [foldl fst snd].
  by simplify_map_eq.
Qed.

Lemma matching_envelope_problems (ps : list pyval) :
  problems_of (matching_envelope ps) = Some (PList ps).
Proof.
  unfold problems_of, matching_envelope, dict. cbn [foldl fst snd].
  by simplify_map_eq.
Qed.

Lemma failed_list_envelope_problems (action cause : string) :
  problems_of (failed_list_envelope action cause) = Some (PList []).
Proof.
  unfold problems_of, failed_list_envelope, dict. cbn [foldl fst snd].
  by simplify_map_eq.
Qed.

Lemma result_given (data : gmap string pyval) (l : list pyval) :
  default (PList []) (data !! "result") = PList l → l ≠ [] →
  data !! "result" = Some (PList l).
Proof.
  destruct (data !! "result") as [v|]; cbn; [by intros ->|].
  by intros [= <-] ?.
Qed.

Section Provenance.

Variables (f : pyval → result pyval)
  (N : gmap string pyval → gmap string pyval → Prop)
  (mk : list pyval → pyval).
Hypothesis f_shape : ∀ x y, f x = inr y →
  ∃ rec out, x = PDict rec ∧ y = PDict out ∧ N rec out.
Hypothesis mk_problems : ∀ ps, problems_of (mk ps) = Some (PList ps).

Lemma post_records (resp : Response) (x : pyval) (ps : list pyval) :
  (raise_for_status resp;;
   data ← json resp;
   result ← get data "result" (PList []);
   recs ← iter result;
   problems ← mapM f recs;
   mret (mk problems)) = inr x →
  problems_of x = Some (PList ps) →
  ps ≠ [] →
  x = mk ps
  ∧ error_status resp = false
  ∧ ∃ data recs,
      body resp = inr (PDict data)
      ∧ data !! "result" = Some (PList (PDict <$> recs))
      ∧ Forall2 (λ rec p, ∃ out, p = PDict out ∧ N rec out) recs ps.
Proof.
  destruct (raise_for_status resp) as [e|[]] eqn:Hst; [done|].
  apply raise_for_status_passed in Hst.
  cbn [mbind result_bind]. unfold json.
  destruct (body resp) as [e|data] eqn:Hb; [done|].
  cbn [mbind result_bind].
  destruct data as [| | | | | |data]; try discriminate.
  cbn [get mbind result_bind].
  destruct (iter _) as [e|recs] eqn:Hiter; [done|].
  cbn [mbind result_bind].
  destruct (mapM f recs) as [e|ps'] eqn:Hm; [done|].
  cbn [mbind result_bind mret result_ret].
  intros Heq%(inj inr) Hps Hne. subst x.
  rewrite mk_problems in Hps. injection Hps as ->.
  destruct (iterated_records f N _ _ _ f_shape Hiter Hm Hne)
    as (rs & Hres & Hall).
  split; [done|]. split; [done|]. exists data, rs.
  split; [done|]. split; [|done].
  apply result_given; [done|].
  intros Hnil. destruct rs; [|done]. inversion Hall. by subst.
Qed.

End Provenance.

(** X11: [list_problems] and [search_problems] report nothing that was not
    received.  An envelope whose [problems] list has at least one element
    can only come from a response without an error status whose body is an
    object with a [result] array of objects; it is the success envelope, and
    the records reported are these objects, one for one and in order,
    normalized. *)
Theorem reported_problems_were_received (config : ServerConfig)
    (auth : AuthManager) (w : World) (res : pyval) (ps : list pyval)
    (tr : list event) :
  problems_of res = Some (PList ps) →
  ps ≠ [] →
  (∀ params,
     run (list_problems config auth params) w = (inr res, tr) →
     res = found_envelope ps
     ∧ ∃ h resp data recs,
         get_headers auth = inr h
         ∧ w (table_request config h (list_query_params params))
           = Responds resp
         ∧ error_status resp = false
         ∧ body resp = inr (PDict data)
         ∧ data !! "result" = Some (PList (PDict <$> recs))
         ∧ Forall2 (λ rec p, ∃ out, p = PDict out ∧ normalized rec out)
             recs ps)
  ∧ (∀ params,
     run (search_problems config auth params) w = (inr res, tr) →
     res = matching_envelope ps
     ∧ ∃ h resp data recs,
         get_headers auth = inr h
         ∧ w (table_request config h
                (search_query_params params
                   (search_or_parts (SearchProblemsParams.keywords params))))
           = Responds resp
         ∧ error_status resp = false
         ∧ body resp = inr (PDict data)
         ∧ data !! "result" = Some (PList (PDict <$> recs))
         ∧ Forall2 (λ rec p, ∃ out, p = PDict out ∧ compact rec out)
             recs ps).
Proof.
  intros Hps Hne. split; intros params.
  - unfold list_problems. intros H.
    apply guarded_outcomes in H
      as [(e & He & Hres%(inj inr) & Hlog)|[(e & _ & [=] & _)
         |(h & resp & x & Hgh & Hw & Hp & Hx%(inj inr) & ->)]].
    { assert (problems_of res = Some (PList [])) as Hf.
      { subst res.
        exact (failed_list_envelope_problems "list problems" (exn_str e)). }
      rewrite Hf in Hps. by injection Hps as <-. }
    subst x.
    apply (post_records normalize_problem normalized found_envelope
             normalize_problem_shape found_envelope_problems resp res ps)
      in Hp as (Hx & Hst & data & recs & Hb & Hres & Hall); [|done..].
    split; [done|]. by exists h, resp, data, recs.
  - unfold search_problems.
    destruct (negb (truthy _)).
    { intros [H%(inj inr) _]%pair_equal_spec. subst res.
      vm_compute in Hps. by injection Hps as <-. }
    destruct (negb (truthy _)).
    { intros [H%(inj inr) _]%pair_equal_spec. subst res.
      vm_compute in Hps. by injection Hps as <-. }
    intros H.
    apply guarded_outcomes in H
      as [(e & He & Hres%(inj inr) & Hlog)|[(e & _ & [=] & _)
         |(h & resp & x & Hgh & Hw & Hp & Hx%(inj inr) & ->)]].
    { assert (problems_of res = Some (PList [])) as Hf.
      { subst res.
        exact (failed_list_envelope_problems "search problems"
                 (exn_str e)). }
      rewrite Hf in Hps. by injection Hps as <-. }
    subst x.
    apply (post_records normalize_compact compact matching_envelope
             normalize_compact_shape matching_envelope_problems resp res ps)
      in Hp as (Hx & Hst & data & recs & Hb & Hres & Hall); [|done..].
    split; [done|]. by exists h, resp, data, recs.
Qed.

(** X11 at the listing of the tests. *)
Lemma reported_problems_were_received_witness :
  found_envelope [normalized_test_record]
  = found_envelope [normalized_test_record]
  ∧ ∃ h resp data recs,
      get_headers test_auth = inr h
      ∧ responding (json_response 200
          (PDict (result_body [PDict test_record])))
          (table_request test_config h (list_query_params test_list_params))
        = Responds resp
      ∧ error_status resp = false
      ∧ body resp = inr (PDict data)
      ∧ data !! "result" = Some (PList (PDict <$> recs))
      ∧ Forall2 (λ rec p, ∃ out, p = PDict out ∧ normalized rec out)
          recs [normalized_test_record].
Proof.
  refine (proj1 (reported_problems_were_received test_config test_auth
            (responding (json_response 200
               (PDict (result_body [PDict test_record]))))
            (found_envelope [normalized_test_record])
            [normalized_test_record]
            [HttpGet (table_request test_config test_headers
                        (list_query_params test_list_params))] _ _)
            test_list_params _).
  - vm_compute; reflexivity.
  - discriminate.
  - vm_compute; reflexivity.
Defined.

(** X12: [get_problem_by_number] reports no problem that was not received.
    An envelope with [success = True] can only come from a response without
    an error status whose body is an object with a [result] array that
    starts with an object; the problem reported is that first object,
    normalized, and any further element is ignored. *)
Theorem reported_problem_was_received (config : ServerConfig)
    (auth : AuthManager) (params : GetProblemByNumberParams.t) (w : World)
    (res : pyval) (tr : list event) :
  run (get_problem_by_number config auth params) w = (inr res, tr) →
  success_of res = Some (PBool true) →
  ∃ h resp data rec rest out,
    get_headers auth = inr h
    ∧ w (table_request config h (get_query_params params)) = Responds resp
    ∧ error_status resp = false
    ∧ body resp = inr (PDict data)
    ∧ data !! "result" = Some (PList (PDict rec :: rest))
    ∧ normalized rec out
    ∧ res = problem_envelope
              (GetProblemByNumberParams.problem_number params) (PDict out).
Proof.
  unfold get_problem_by_number. intros H Hs.
  apply guarded_outcomes in H
    as [(e & He & Hres%(inj inr) & Hlog)|[(e & _ & [=] & _)
       |(h & resp & x & Hgh & Hw & Hp & Hx%(inj inr) & ->)]].
  { subst res. vm_compute in Hs. discriminate Hs. }
  subst x. exists h, resp. revert Hp.
  destruct (raise_for_status resp) as [e|[]] eqn:Hst; [done|].
  apply raise_for_status_passed in Hst.
  cbn [mbind result_bind]. unfold json.
  destruct (body resp) as [e|data] eqn:Hb; [done|].
  cbn [mbind result_bind].
  destruct data as [| | | | | |data]; try discriminate.
  cbn [get mbind result_bind].
  destruct (negb (truthy _)) eqn:Ht.
  { intros Hres%(inj inr). subst res. vm_compute in Hs. discriminate Hs. }
  destruct (index0 _) as [e|x] eqn:Hi; [done|]. cbn [mbind result_bind].
  destruct (normalize_problem x) as [e|p] eqn:Hn; [done|].
  cbn [mbind result_bind mret result_ret]. intros Hres%(inj inr).
  apply normalize_problem_shape in Hn as (rec & out & -> & -> & Hn).
  exists data, rec.
  destruct (data !! "result") as [[| | | |s|l|d]|] eqn:Hr;
    cbn [default from_option id index0] in Hi; try discriminate.
  - destruct s; discriminate.
  - destruct l as [|y rest]; [discriminate|]. injection Hi as ->.
    by exists rest, out.
Qed.

(** X12 at the lookup of the tests. *)
Lemma reported_problem_was_received_witness :
  ∃ h resp data rec rest out,
    get_headers test_auth = inr h
    ∧ responding (json_response 200
        (PDict (result_body [PDict test_record])))
        (table_request test_config h
           (get_query_params (number_params "PRB0010001")))
      = Responds resp
    ∧ error_status resp = false
    ∧ body resp = inr (PDict data)
    ∧ data !! "result" = Some (PList (PDict rec :: rest))
    ∧ normalized rec out
    ∧ problem_envelope "PRB0010001" normalized_test_record
      = problem_envelope "PRB0010001" (PDict out).
Proof.
  refine (reported_problem_was_received test_config test_auth
            (number_params "PRB0010001")
            (responding (json_response 200
               (PDict (result_body [PDict test_record]))))
            (problem_envelope "PRB0010001" normalized_test_record)
            [HttpGet (table_request test_config test_headers
                        (get_query_params (number_params "PRB0010001")))]
            _ _).
  - vm_compute; reflexivity.
  - vm_compute; reflexivity.
Defined.

(** ** Arguments left out *)

(** X13: a caller who leaves out [limit] and [offset] asks for the first
    ten records: [list_problems] and [search_problems] send
    [sysparm_limit = 10] and [sysparm_offset = 0].  A lookup by number
    always asks for one record and sends no offset.  A search whose
    [keywords] argument is left out fails with a [ValidationError] before
    any network call. *)
Theorem pagination_defaults (config : ServerConfig) (auth : AuthManager)
    (w : World) (h : gmap string string) :
  get_headers auth = inr h →
  (∀ state assigned_to category query,
     ∃ r,
       http_requests (snd (run (call_list_problems config auth None None
                                  state assigned_to category query) w))
       = [r]
       ∧ req_params r !! "sysparm_limit" = Some (PInt 10)
       ∧ req_params r !! "sysparm_offset" = Some (PInt 0))
  ∧ (∀ keywords,
     search_or_parts keywords ≠ [] →
     ∃ r,
       http_requests (snd (run (call_search_problems config auth
                                  (Some keywords) None None) w))
       = [r]
       ∧ req_params r !! "sysparm_limit" = Some (PInt 10)
       ∧ req_params r !! "sysparm_offset" = Some (PInt 0))
  ∧ (∀ n,
     ∃ r,
       http_requests (snd (run (call_get_problem_by_number config auth
                                  (Some n)) w))
       = [r]
       ∧ req_params r !! "sysparm_limit" = Some (PInt 1)
       ∧ req_params r !! "sysparm_offset" = None)
  ∧ (∀ limit offset,
     ∃ e, exn_cls e = ValidationError
       ∧ run (call_search_problems config auth None limit offset) w
         = (inl e, [])).
Proof.
  intros Hgh. split; [|split; [|split]].
  - intros state assigned_to category query.
    rewrite call_list_problems_run, list_problems_requests, Hgh.
    eexists. split; [reflexivity|]. cbn [req_params table_request].
    rewrite list_query_params_query. cbn [ListProblemsParams.limit
      ListProblemsParams.offset default from_option id].
    unfold unfiltered_params, dict. cbn [foldl fst snd].
    destruct (list_filters _); by simplify_map_eq.
  - intros keywords Hne.
    rewrite call_search_problems_run, search_problems_requests, Hgh.
    cbn [SearchProblemsParams.keywords].
    destruct (search_or_parts keywords); [done|].
    eexists. split; [reflexivity|]. by split.
  - intros n.
    rewrite call_get_problem_by_number_run, get_problem_by_number_requests,
      Hgh.
    eexists. split; [reflexivity|]. by split.
  - intros limit offset. eexists (Exn ValidationError _).
    split; reflexivity.
Qed.

(** X13 at a listing with a text filter only. *)
Lemma pagination_defaults_witness :
  ∃ r,
    http_requests (snd (run (call_list_problems test_config test_auth None
                               None None None None (Some "email"))
                          unreachable))
    = [r]
    ∧ req_params r !! "sysparm_limit" = Some (PInt 10)
    ∧ req_params r !! "sysparm_offset" = Some (PInt 0).
Proof.
  exact (proj1 (pagination_defaults test_config test_auth unreachable
                  test_headers eq_refl) None None None (Some "email")).
Defined.

(** * Properties of the script [search_articles.py] *)

Import SearchArticles.

Lemma lower_char_idemp (c : ascii) : lower_char (lower_char c) = lower_char c.
Proof. by destruct c as [[] [] [] [] [] [] [] []]. Qed.

Lemma lower_idemp (s : string) : lower (lower s) = lower s.
Proof.
  induction s as [|c s IH]; [done|].
  cbn [lower]. by rewrite lower_char_idemp, IH.
Qed.

Lemma or_else_truthy (a b : option string) :
  truthy_opt a = true → or_else a b = a.
Proof. unfold or_else. by intros ->. Qed.

Section ScriptRuns.

Context `{Collaborators}.

(** The run of [main], step by step. *)
Lemma run_main_steps (environ : Environ) (argv : list string) :
  run_main environ argv
  = if (length argv <? 2)%nat then (inr 2, [Print stderr usage])
    else
      match instance_url environ with
      | None => (inr 2, [Print stderr missing_instance_url])
      | Some url =>
          match build_auth_config environ with
          | inl e => (inl e, [])
          | inr ac =>
          match ServerConfig url ac 30 with
          | inl e => (inl (Raised e), [])
          | inr sc =>
          match AuthManager (server_auth sc) (server_instance_url sc) with
          | inl e => (inl (Raised e), [])
          | inr am =>
          match SearchArticlesParams (tail argv) 20 0 with
          | inl e => (inl (Raised e), [])
          | inr p =>
          match search_articles sc am p with
          | inl e => (inl (Raised e), [SearchArticles sc am p])
          | inr result =>
          match json_dumps result 2 with
          | inl e => (inl (Raised e), [SearchArticles sc am p])
          | inr text =>
          match get result "success" PNone with
          | inl e =>
              (inl (Raised e), [SearchArticles sc am p; Print stdout text])
          | inr success =>
              (inr (if truthy success then 0 else 1),
               [SearchArticles sc am p; Print stdout text])
          end end end end end end end
      end.
Proof.
  unfold run_main, main, instance_url.
  destruct (length argv <? 2)%nat; [reflexivity|].
  destruct (truthy_str _) as [url|]; [|reflexivity].
  unfold mbind, script_bind, quiet, call_search_articles, print, mret,
    script_ret.
  destruct (build_auth_config environ) as [e|ac]; [reflexivity|].
  destruct (ServerConfig url ac 30) as [e|sc]; cbn [raised];
    [reflexivity|].
  destruct (AuthManager _ _) as [e|am]; cbn [raised]; [reflexivity|].
  destruct (SearchArticlesParams _ _ _) as [e|p]; cbn [raised];
    [reflexivity|].
  destruct (search_articles sc am p) as [e|result]; cbn [raised app];
    [reflexivity|].
  destruct (json_dumps result 2) as [e|text]; cbn [raised app];
    [reflexivity|].
  destruct (get result "success" PNone) as [e|success]; reflexivity.
Qed.

(** Two environments with the same settings give the same run. *)
Lemma settings_run (environ1 environ2 : Environ) (argv : list string) :
  settings environ1 = settings environ2 →
  build_auth_config environ1 = build_auth_config environ2
  ∧ run_main environ1 argv = run_main environ2 argv.
Proof.
  unfold settings. intros [= H1 H2 H3 H4 H5 H6 H7 H8 H9].
  assert (build_auth_config environ1 = build_auth_config environ2) as Hb.
  { unfold build_auth_config. unfold auth_type in H2.
    by rewrite H2, H3, H4, H5, H6, H7, H8, H9. }
  split; [done|]. by rewrite !run_main_steps, H1, Hb.
Qed.

End ScriptRuns.

Section ScriptProperties.

Context `{Collaborators}.

(** X14: [main] refuses to run, with exit status 2 and one line on the
    error stream, when no keyword follows the program name, whatever the
    environment is; and, when keywords are given, when neither
    [SERVICENOW_INSTANCE_URL] nor [INSTANCE_URL] has a non-empty value.  In
    both cases nothing is configured, searched or printed to the standard
    output. *)
Theorem refusals (environ : Environ) (argv : list string) :
  ((length argv < 2)%nat →
   run_main environ argv = (inr 2, [Print stderr usage]))
  ∧ ((2 ≤ length argv)%nat →
     instance_url environ = None →
     run_main environ argv = (inr 2, [Print stderr missing_instance_url])).
Proof.
  rewrite run_main_steps. split.
  - intros Hlen. apply Nat.ltb_lt in Hlen. by rewrite Hlen.
  - intros Hlen Hurl. apply Nat.ltb_ge in Hlen. by rewrite Hlen, Hurl.
Qed.


(** X16: the one search of a run.  Whenever a search is made, keywords were
    given and an instance URL was set; the server configuration was built
    from that URL, the authentication configuration of the environment and a
    timeout of 30; the manager from the configuration's own [auth] and
    [instance_url]; and the parameters from every argument after the
    program name, as given, with limit 20 and offset 0.  No run makes a
    second search. *)
Theorem search_arguments (environ : Environ) (argv : list string)
    (sc : server_config_t) (am : auth_manager_t) (p : params_t) :
  SearchArticles sc am p ∈ snd (run_main environ argv) →
  (2 ≤ length argv)%nat
  ∧ searches (snd (run_main environ argv)) = [(sc, am, p)]
  ∧ ∃ url ac,
      instance_url environ = Some url
      ∧ build_auth_config environ = inr ac
      ∧ ServerConfig url ac 30 = inr sc
      ∧ AuthManager (server_auth sc) (server_instance_url sc) = inr am
      ∧ SearchArticlesParams (tail argv) 20 0 = inr p.
Proof.
  rewrite run_main_steps.
  destruct (length argv <? 2)%nat eqn:Hlen.
  { cbn [snd]. intros Hin. apply list_elem_of_singleton in Hin. done. }
  apply Nat.ltb_ge in Hlen.
  destruct (instance_url environ) as [url|] eqn:Hurl.
  2:{ cbn [snd]. intros Hin. apply list_elem_of_singleton in Hin. done. }
  destruct (build_auth_config environ) as [e|ac];
    [by intros ?%elem_of_nil|].
  destruct (ServerConfig url ac 30) as [e|sc'] eqn:Hsc;
    [by intros ?%elem_of_nil|].
  destruct (AuthManager _ _) as [e|am'] eqn:Ham; [by intros ?%elem_of_nil|].
  destruct (SearchArticlesParams _ _ _) as [e|p'] eqn:Hp;
    [by intros ?%elem_of_nil|].
  assert (∀ rest,
    (∀ a, a ∈ rest → ∃ f text, a = Print f text) →
    searches rest = [] →
    SearchArticles sc am p ∈ SearchArticles sc' am' p' :: rest →
    (2 ≤ length argv)%nat
    ∧ searches (SearchArticles sc' am' p' :: rest) = [(sc, am, p)]
    ∧ ∃ url0 ac0,
        Some url = Some url0
        ∧ (inr ac : error + auth_config_t) = inr ac0
        ∧ ServerConfig url0 ac0 30 = inr sc
        ∧ AuthManager (server_auth sc) (server_instance_url sc) = inr am
        ∧ (inr p' : result params_t) = inr p) as Hcase.
  { intros rest Hrest Hnone [Heq|Hin]%elem_of_cons.
    - injection Heq as -> -> ->. split; [done|].
      split; [unfold searches in *; cbn; by rewrite Hnone|].
      by exists url, ac.
    - apply Hrest in Hin as (f & text & [=]). }
  destruct (search_articles sc' am' p') as [e|result]; cbn [snd].
  { apply Hcase; [by intros a ?%elem_of_nil|done]. }
  destruct (json_dumps result 2) as [e|text]; cbn [snd].
  { apply Hcase; [by intros a ?%elem_of_nil|done]. }
  destruct (get result "success" PNone) as [e|success]; cbn [snd];
    (apply Hcase; [|done]); intros a ->%list_elem_of_singleton; by eauto.
Qed.

(** X17: for an authentication type written in ASCII, [build_auth_config]
    raises its [RuntimeError] exactly when the type, lowered, is none of
    [basic], [oauth] and [api_key]; the message names the lowered type.
    [main] then raises the same error before anything is searched or
    printed. *)
Theorem unsupported_auth_type (environ : Environ) :
  isascii (auth_type environ) = true →
  ((∃ msg, build_auth_config environ = inl (RuntimeError msg))
   ↔ lower (auth_type environ) ∉ supported)
  ∧ (lower (auth_type environ) ∉ supported →
     build_auth_config environ
     = inl (RuntimeError ("Unsupported AUTH_TYPE: "
                          +:+ lower (auth_type environ)))
     ∧ ∀ argv,
         (2 ≤ length argv)%nat →
         is_Some (instance_url environ) →
         run_main environ argv
         = (inl (RuntimeError ("Unsupported AUTH_TYPE: "
                               +:+ lower (auth_type environ))), [])).
Proof.
  intros _.
  assert (lower (auth_type environ) ∉ supported →
          build_auth_config environ
          = inl (RuntimeError ("Unsupported AUTH_TYPE: "
                               +:+ lower (auth_type environ)))) as Hraise.
  { unfold supported. intros Hn.
    apply not_elem_of_cons in Hn as [H1 Hn].
    apply not_elem_of_cons in Hn as [H2 Hn].
    apply not_elem_of_cons in Hn as [H3 _].
    unfold build_auth_config. fold (auth_type environ).
    apply String.eqb_neq in H1, H2, H3. by rewrite H1, H2, H3. }
  split; [split|].
  - intros [msg Hmsg] Hin. unfold supported in Hin.
    unfold build_auth_config in Hmsg. fold (auth_type environ) in Hmsg.
    repeat (apply elem_of_cons in Hin as [Heq|Hin]);
      [..|by apply elem_of_nil in Hin]; rewrite Heq in Hmsg;
      cbn [String.eqb Ascii.eqb Bool.eqb] in Hmsg;
      match type of Hmsg with
      | context [raised ?r] => destruct r; cbn in Hmsg; [done|]
      end;
      match type of Hmsg with
      | context [raised ?r] => destruct r; cbn in Hmsg; done
      end.
  - intros Hn. eexists. by apply Hraise.
  - intros Hn. split; [by apply Hraise|].
    intros argv Hlen [url Hurl]. rewrite run_main_steps.
    apply Nat.ltb_ge in Hlen. by rewrite Hlen, Hurl, Hraise.
Qed.

End ScriptProperties.

(** ** The environment *)

Ltac lookups :=
  unfold settings, instance_url, auth_type, getenv, Environ in *;
  rewrite ?lookup_insert_eq, ?lookup_delete_eq;
  rewrite ?lookup_insert_ne, ?lookup_delete_ne by done.

Lemma empty_settings (environ : Environ) (k : string) :
  k ∈ empty_as_unset →
  settings (<[k := ""]> environ) = settings (delete k environ).
Proof.
  unfold empty_as_unset. intros Hk.
  repeat (apply elem_of_cons in Hk as [->|Hk]);
    [..|by apply elem_of_nil in Hk]; lookups; try reflexivity.
  - by destruct (environ !! "SERVICENOW_INSTANCE_URL") as [[|]|].
  - by destruct (environ !! "SERVICENOW_AUTH_TYPE") as [[|]|].
Qed.

Lemma fallback_settings (environ : Environ) (prefixed plain : string) :
  (prefixed, plain) ∈ fallbacks →
  truthy_opt (environ !! prefixed) = true →
  ∀ v, settings (<[plain := v]> environ) = settings environ
       ∧ settings (delete plain environ) = settings environ.
Proof.
  unfold fallbacks. intros Hk Ht v.
  repeat (apply elem_of_cons in Hk as [[= -> ->]|Hk]);
    [..|by apply elem_of_nil in Hk]; split; lookups;
    by rewrite ?(or_else_truthy _ _ Ht).
Qed.


Lemma auth_type_lowered (environ : Environ) (k t : string) :
  k = "SERVICENOW_AUTH_TYPE" ∨ k = "AUTH_TYPE" →
  settings (<[k := lower t]> environ) = settings (<[k := t]> environ).
Proof.
  intros [-> | ->]; lookups.
  - destruct t as [|c t]; [done|]. cbn [lower or_else truthy_opt String.eqb
      negb or_str]. by rewrite lower_idemp, lower_char_idemp.
  - destruct (environ !! "SERVICENOW_AUTH_TYPE") as [[|]|];
      (destruct t as [|c t]; [done|]); cbn [lower or_else truthy_opt
        String.eqb negb or_str]; by rewrite ?lower_idemp, ?lower_char_idemp.
Qed.

Section ScriptEnvironment.

Context `{Collaborators}.

(** X18: for ten of the variables an empty value counts as unset: both
    URL variables, both type variables, the prefixed user name, password,
    client id, client secret and API key, and the header name.  Setting one
    of them to the empty string gives the same configuration and the same
    run as removing it. *)
Theorem empty_counts_as_unset (environ : Environ) (k : string)
    (argv : list string) :
  k ∈ empty_as_unset →
  build_auth_config (<[k := ""]> environ)
  = build_auth_config (delete k environ)
  ∧ run_main (<[k := ""]> environ) argv = run_main (delete k environ) argv.
Proof. intros Hk. by apply settings_run, empty_settings. Qed.

(** X19: a prefixed variable wins.  When [SERVICENOW_<NAME>] has a
    non-empty value, the plain variable [<NAME>] is not read: setting it to
    anything, or removing it, changes neither the configuration nor the
    run. *)
Theorem prefixed_variable_wins (environ : Environ) (prefixed plain : string)
    (argv : list string) (v : string) :
  (prefixed, plain) ∈ fallbacks →
  truthy_opt (environ !! prefixed) = true →
  (build_auth_config (<[plain := v]> environ) = build_auth_config environ
   ∧ run_main (<[plain := v]> environ) argv = run_main environ argv)
  ∧ (build_auth_config (delete plain environ) = build_auth_config environ
     ∧ run_main (delete plain environ) argv = run_main environ argv).
Proof.
  intros Hk Ht.
  destruct (fallback_settings environ prefixed plain Hk Ht v) as [H1 H2].
  split; by apply settings_run.
Qed.

(** X20: the authentication type is read without regard to letter case:
    for a type written in ASCII, in either type variable, the configuration
    and the run are the same as with the type in lower case. *)
Theorem auth_type_case_insensitive (environ : Environ) (k t : string)
    (argv : list string) :
  isascii t = true →
  k = "SERVICENOW_AUTH_TYPE" ∨ k = "AUTH_TYPE" →
  build_auth_config (<[k := lower t]> environ)
  = build_auth_config (<[k := t]> environ)
  ∧ run_main (<[k := lower t]> environ) argv
    = run_main (<[k := t]> environ) argv.
Proof. intros _ Hk. by apply settings_run, auth_type_lowered. Qed.


End ScriptEnvironment.

(** ** The script at concrete runs *)

Section ScriptExamples.

#[local] Existing Instance stub.


(** X16 at the same run: the keyword goes out with limit 20, offset 0 and a
    timeout of 30. *)
Lemma search_arguments_witness :
  (2 ≤ length ["search_articles.py"; "vpn"])%nat
  ∧ searches (snd (run_main test_environ ["search_articles.py"; "vpn"]))
    = [(stub_server, stub_manager, stub_params)]
  ∧ ∃ url ac,
      instance_url test_environ = Some url
      ∧ build_auth_config test_environ = inr ac
      ∧ ServerConfig url ac 30 = inr stub_server
      ∧ AuthManager (server_auth stub_server)
          (server_instance_url stub_server)
        = inr stub_manager
      ∧ SearchArticlesParams (tail ["search_articles.py"; "vpn"]) 20 0
        = inr stub_params.
Proof.
  apply (search_arguments test_environ ["search_articles.py"; "vpn"]
           stub_server stub_manager stub_params).
  vm_compute. constructor.
Defined.

(** X17 at an authentication type the script does not know. *)
Lemma unsupported_auth_type_witness :
  build_auth_config (<["AUTH_TYPE" := "Kerberos"]> test_environ)
  = inl (RuntimeError "Unsupported AUTH_TYPE: kerberos")
  ∧ run_main (<["AUTH_TYPE" := "Kerberos"]> test_environ)
      ["search_articles.py"; "vpn"]
    = (inl (RuntimeError "Unsupported AUTH_TYPE: kerberos"), []).
Proof.
  assert (lower (auth_type (<["AUTH_TYPE" := "Kerberos"]> test_environ))
          ∉ supported) as Hn.
  { apply (bool_decide_unpack _). vm_compute. exact I. }
  assert (isascii (auth_type (<["AUTH_TYPE" := "Kerberos"]> test_environ))
          = true) as Ha by (vm_compute; reflexivity).
  destruct (proj2 (unsupported_auth_type
                     (<["AUTH_TYPE" := "Kerberos"]> test_environ) Ha)
              Hn) as [Hbuild Hmain].
  split; [exact Hbuild|].
  apply (Hmain ["search_articles.py"; "vpn"]); [cbn; lia|by eexists].
Defined.

(** X18 at an empty user name. *)
Lemma empty_counts_as_unset_witness :
  build_auth_config (<["SERVICENOW_USERNAME" := ""]> test_environ)
  = build_auth_config (delete "SERVICENOW_USERNAME" test_environ)
  ∧ run_main (<["SERVICENOW_USERNAME" := ""]> test_environ)
      ["search_articles.py"; "vpn"]
    = run_main (delete "SERVICENOW_USERNAME" test_environ)
        ["search_articles.py"; "vpn"].
Proof.
  apply empty_counts_as_unset.
  apply (bool_decide_unpack _). vm_compute. exact I.
Defined.

(** X19 at the instance URL: the plain variable is not read. *)
Lemma prefixed_variable_wins_witness :
  (build_auth_config
     (<["INSTANCE_URL" := "https://other.example.com"]> test_environ)
   = build_auth_config test_environ
   ∧ run_main
       (<["INSTANCE_URL" := "https://other.example.com"]> test_environ)
       ["search_articles.py"; "vpn"]
     = run_main test_environ ["search_articles.py"; "vpn"])
  ∧ (build_auth_config (delete "INSTANCE_URL" test_environ)
     = build_auth_config test_environ
     ∧ run_main (delete "INSTANCE_URL" test_environ)
         ["search_articles.py"; "vpn"]
       = run_main test_environ ["search_articles.py"; "vpn"]).
Proof.
  apply (prefixed_variable_wins test_environ "SERVICENOW_INSTANCE_URL").
  - apply (bool_decide_unpack _). vm_compute. exact I.
  - reflexivity.
Defined.

(** X20 at a type written with capitals. *)
Lemma auth_type_case_insensitive_witness :
  build_auth_config (<["AUTH_TYPE" := lower "OAuth"]> test_environ)
  = build_auth_config (<["AUTH_TYPE" := "OAuth"]> test_environ)
  ∧ run_main (<["AUTH_TYPE" := lower "OAuth"]> test_environ)
      ["search_articles.py"; "vpn"]
    = run_main (<["AUTH_TYPE" := "OAuth"]> test_environ)
        ["search_articles.py"; "vpn"].
Proof.
  apply auth_type_case_insensitive; [reflexivity|by right].
Defined.


End ScriptExamples.
